(** * mis2: pairing of received/sent chat-log rows

    A shallow embedding of [calculate_time_differences] and of
    [process_excel_file] from [mis2.py] (its reading half, and the cell
    assignments of its writing half), with the properties of the pairing
    scan, of the reader and of the writer proved over it.

    Python objects are modelled by explicit data:
    - a cell or label is a [value];
    - a dict is an insertion-ordered association list with Python's key
      equality ([py_eq]);
    - a DataFrame is its list of column labels together with its records;
      the labels of one frame are distinct, as they are in every frame
      [pd.DataFrame] builds from dicts;
    - an exception is an [exn], and a call yields an [outcome];
    - a float is the exact rational it stands for, or NaN;
    - a call that changes its argument yields the changed argument too;
    - the [while] loops run on fuel, and the theorems show that the fuel the
      model supplies is always enough. *)

From Stdlib Require Import List String Ascii Bool Arith ZArith QArith Lia.
Import ListNotations.
Local Open Scope string_scope.
Local Open Scope list_scope.
Local Open Scope nat_scope.

(** ** Values *)

(** What a worksheet cell, a dict key or a DataFrame cell can hold.
    [VDatetime ns] is a point in time in nanoseconds since the epoch (a
    [datetime] read from a date cell, or a pandas [Timestamp]); [VNaT] is
    pandas' missing timestamp and [VNaN] its missing cell. *)
Inductive value : Type :=
| VNone
| VBool (b : bool)
| VInt (z : Z)
| VStr (s : string)
| VDatetime (ns : Z)
| VNaT
| VNaN.

(** Python's [==] on these values: [True == 1] and [False == 0], a missing
    value equals nothing, and values of different kinds are unequal. *)
Definition py_eq (a b : value) : bool :=
  match a, b with
  | VNone, VNone => true
  | VBool x, VBool y => Bool.eqb x y
  | VBool x, VInt z | VInt z, VBool x => Z.eqb z (if x then 1 else 0)
  | VInt x, VInt y => Z.eqb x y
  | VStr x, VStr y => String.eqb x y
  | VDatetime x, VDatetime y => Z.eqb x y
  | _, _ => false
  end.

(** [x is None] *)
Definition is_None (v : value) : bool :=
  match v with VNone => true | _ => false end.

(** [x in row] for a tuple or a list. *)
Definition py_in (x : value) (l : list value) : bool :=
  existsb (fun y => py_eq y x) l.

(** The literals of the source. *)
Definition STATUS : string := "发出/接收".
Definition TIME : string := "会话时间".
Definition RECEIVE : string := "接收".
Definition SEND : string := "发出".
Definition DATETIME : string := "datetime".
Definition MSG_COLUMNS : string := "数据必须包含'发出/接收'和'会话时间'列".
Definition MSG_NO_HEADER : string := "无法找到包含'发出/接收'或'会话时间'的列".
Definition MSG_HEADER_COLUMNS : string := "必须包含'发出/接收'和'会话时间'列".
Definition MSG_WRAP : string := "计算时间差时出错: ".

(** ** Dicts *)

(** A Python dict: keys in insertion order, no two of them [py_eq]. *)
Definition dict : Type := list (value * value).

Fixpoint dict_get (k : value) (d : dict) : option value :=
  match d with
  | [] => None
  | (k', v) :: d' => if py_eq k' k then Some v else dict_get k d'
  end.

(** [d[k] = v]: an existing key keeps its place, a new one goes last. *)
Fixpoint dict_set (k v : value) (d : dict) : dict :=
  match d with
  | [] => [(k, v)]
  | (k', v') :: d' =>
      if py_eq k' k then (k', v) :: d' else (k', v') :: dict_set k v d'
  end.

Definition keys (d : dict) : list value := map fst d.

(** ** Exceptions and outcomes *)

(** An exception with the text [str(e)] gives. *)
Inductive exn : Type :=
| ValueError (msg : string)
| KeyError (msg : string)
| IndexError (msg : string)
| TypeError (msg : string).

Definition str (e : exn) : string :=
  match e with
  | ValueError m | KeyError m | IndexError m | TypeError m => m
  end.

(** What a call does: it returns, it raises, or (in the model only) a loop
    has used up its fuel. *)
Inductive outcome (A : Type) : Type :=
| Returned (a : A)
| Raised (e : exn)
| OutOfFuel.
Arguments Returned {A} a.
Arguments Raised {A} e.
Arguments OutOfFuel {A}.

Definition bind {A B : Type} (c : outcome A) (k : A -> outcome B) : outcome B :=
  match c with
  | Returned a => k a
  | Raised e => Raised e
  | OutOfFuel => OutOfFuel
  end.

Notation "x <- c ;; k" := (bind c (fun x => k))
  (at level 61, c at next level, right associativity).

(** ** Loops *)

(** How one pass through a loop body ends. *)
Inductive ctrl (S : Type) : Type :=
| Continue (s : S)
| Break (s : S).
Arguments Continue {S} s.
Arguments Break {S} s.

Definition ctrl_state {S : Type} (c : ctrl S) : S :=
  match c with Continue s | Break s => s end.

(** [while cond: body], on the loop's variables. *)
Fixpoint while_loop {S : Type} (fuel : nat) (cond : S -> bool)
    (body : S -> outcome (ctrl S)) (s : S) : outcome S :=
  match fuel with
  | O => OutOfFuel
  | Datatypes.S fuel' =>
      if cond s then
        match body s with
        | Returned (Continue s') => while_loop fuel' cond body s'
        | Returned (Break s') => Returned s'
        | Raised e => Raised e
        | OutOfFuel => OutOfFuel
        end
      else Returned s
  end.

(** ** DataFrames *)

Record DataFrame : Type := mkDataFrame {
  columns : list value;
  records : list dict
}.

(** [len(df)] *)
Definition len (df : DataFrame) : nat := List.length (records df).

(** The cell of a record under a label; a record without it shows [NaN]. *)
Definition cell (k : value) (r : dict) : value :=
  match dict_get k r with Some v => v | None => VNaN end.

Definition add_label (k : value) (cols : list value) : list value :=
  if py_in k cols then cols else cols ++ [k].

(** [pd.DataFrame(data)] for a list of dicts: the labels are the keys in
    the order they first appear. *)
Definition pd_DataFrame (data : list dict) : DataFrame :=
  {| columns :=
       fold_left (fun cols r => fold_left (fun c k => add_label k c) (keys r) cols)
                 data [];
     records := data |}.

(** A row or a column taken out of a frame.  A row ([df.iloc[i]]) is
    indexed by the frame's labels. *)
Record Series : Type := mkSeries {
  s_index : list value;
  s_data : dict
}.

(** [df.iloc[i]] *)
Definition iloc (df : DataFrame) (i : nat) : outcome Series :=
  match nth_error (records df) i with
  | Some r => Returned {| s_index := columns df; s_data := r |}
  | None => Raised (IndexError "single positional indexer is out-of-bounds")
  end.

(** [row[k]] *)
Definition getitem (row : Series) (k : value) : outcome value :=
  if py_in k (s_index row) then Returned (cell k (s_data row))
  else Raised (KeyError "label not in index").

(** [df.iloc[i][k]] *)
Definition iloc_getitem (df : DataFrame) (i : nat) (k : value) : outcome value :=
  row <- iloc df i ;; getitem row k.

(** [df[k]], the column as the list of its cells. *)
Definition getitem_column (df : DataFrame) (k : value) : outcome (list value) :=
  if py_in k (columns df) then Returned (map (cell k) (records df))
  else Raised (KeyError "label not in columns").

Fixpoint assign_cells (k : value) (rs : list dict) (vs : list value) : list dict :=
  match rs, vs with
  | r :: rs', v :: vs' => dict_set k v r :: assign_cells k rs' vs'
  | _, _ => rs
  end.

(** [df[k] = vs], for a column [vs] on the frame's own index: the frame
    the caller holds afterwards. *)
Definition setitem_column (df : DataFrame) (k : value) (vs : list value) : DataFrame :=
  {| columns := add_label k (columns df);
     records := assign_cells k (records df) vs |}.

(** ** Timestamps and floats *)

(** A Python float: not-a-number, or a number, kept as the exact rational
    the float stands for. *)
Inductive pyfloat : Type :=
| FNaN
| FVal (q : Q).

(** [a - b] on the cells of the [datetime] column: a [Timedelta] in
    nanoseconds, or [NaT] ([None]) when either side is [NaT]. *)
Definition sub_timestamps (a b : value) : outcome (option Z) :=
  match a, b with
  | VDatetime x, VDatetime y => Returned (Some (x - y)%Z)
  | VDatetime _, VNaT | VNaT, VDatetime _ | VNaT, VNaT => Returned None
  | _, _ => Raised (TypeError "unsupported operand type(s) for -")
  end.

(** [td.total_seconds()] *)
Definition total_seconds (td : option Z) : pyfloat :=
  match td with
  | Some ns => FVal (ns # 1000000000)
  | None => FNaN
  end.

(** [x / n] for a float [x] and a positive integer literal [n]. *)
Definition fdiv (x : pyfloat) (n : positive) : pyfloat :=
  match x with
  | FVal q => FVal (q / (Zpos n # 1))
  | FNaN => FNaN
  end.

(** ** The pairing engine *)

(** One entry of [results]. *)
Record Match : Type := mkMatch {
  receive_index : nat;
  send_index : nat;
  receive_time : value;
  send_time : value;
  time_diff_minutes : pyfloat
}.

(** The variables the two loops of [calculate_time_differences] share. *)
Record locals : Type := mkLocals {
  var_i : nat;
  var_j : nat;
  var_results : list Match
}.

Section Engine.

(** [pd.to_datetime(_, format="%Y/%m/%d %H:%M", errors='coerce')] on one
    cell: the nanoseconds of the parsed time, or [None] for [NaT].  The
    parser is pandas', so the engine is modelled for any such function. *)
Variable to_datetime : value -> option Z.

Definition timestamp_cell (v : value) : value :=
  match to_datetime v with Some ns => VDatetime ns | None => VNaT end.

(** The body of the inner [while j < len(df)] (lines 42-61); [row],
    [receive_index] and [receive_time] are those of the enclosing pass. *)
Definition inner_body (df : DataFrame) (row : Series) (receive_index0 : nat)
    (receive_time0 : value) (s : locals) : outcome (ctrl locals) :=
  d <- iloc_getitem df (var_j s) (VStr STATUS) ;;
  if py_eq d (VStr SEND) then
    let send_index0 := var_j s in
    send_time0 <- iloc_getitem df (var_j s) (VStr DATETIME) ;;
    td <- sub_timestamps send_time0 receive_time0 ;;
    let time_diff := fdiv (total_seconds td) 60 in
    rt <- getitem row (VStr TIME) ;;
    st <- iloc_getitem df (var_j s) (VStr TIME) ;;
    Returned (Break
      {| var_i := var_j s;
         var_j := var_j s;
         var_results := var_results s ++
           [ {| receive_index := receive_index0;
                send_index := send_index0;
                receive_time := rt;
                send_time := st;
                time_diff_minutes := time_diff |} ] |})
  else
    Returned (Continue
      {| var_i := var_i s; var_j := var_j s + 1; var_results := var_results s |}).

(** The body of the outer [while i < len(df)] (lines 32-67). *)
Definition outer_body (fuel : nat) (df : DataFrame) (s : locals)
    : outcome (ctrl locals) :=
  row <- iloc df (var_i s) ;;
  d <- getitem row (VStr STATUS) ;;
  if py_eq d (VStr RECEIVE) then
    let receive_index0 := var_i s in
    receive_time0 <- getitem row (VStr DATETIME) ;;
    s1 <- while_loop fuel (fun s' => var_j s' <? len df)
            (inner_body df row receive_index0 receive_time0)
            {| var_i := var_i s; var_j := var_i s + 1; var_results := var_results s |} ;;
    if var_j s1 =? len df then
      Returned (Continue
        {| var_i := var_i s1 + 1; var_j := var_j s1; var_results := var_results s1 |})
    else Returned (Continue s1)
  else
    Returned (Continue
      {| var_i := var_i s + 1; var_j := var_j s; var_results := var_results s |}).

(** The scan, lines 28-67, on the frame that already has its [datetime]
    column.  [j] has no value yet when the scan starts; it is read only
    after line 40 has set it. *)
Definition scan (fuel : nat) (df : DataFrame) : outcome locals :=
  while_loop fuel (fun s => var_i s <? len df) (outer_body fuel df)
    {| var_i := 0; var_j := 0; var_results := [] |}.

(** [calculate_time_differences(df)] with [fuel] for each loop: the frame
    as the call leaves it, and what the call yields. *)
Definition calculate_time_differences_fuel (fuel : nat) (df : DataFrame)
    : DataFrame * outcome (list Match) :=
  if negb (py_in (VStr STATUS) (columns df)) || negb (py_in (VStr TIME) (columns df))
  then (df, Raised (ValueError MSG_COLUMNS))
  else
    match getitem_column df (VStr TIME) with
    | Returned times =>
        let df' := setitem_column df (VStr DATETIME) (map timestamp_cell times) in
        (df', s <- scan fuel df' ;; Returned (var_results s))
    | Raised e => (df, Raised e)
    | OutOfFuel => (df, OutOfFuel)
    end.

(** [calculate_time_differences(df)]: no loop of it makes more than
    [len(df)] passes. *)
Definition calculate_time_differences (df : DataFrame)
    : DataFrame * outcome (list Match) :=
  calculate_time_differences_fuel (S (len df)) df.

(** ** The spreadsheet reader

    The worksheet is the list of its rows as [iter_rows(values_only=True)]
    yields them, each a tuple of cell values. *)
Definition worksheet : Type := list (list value).

(** Truth of a tuple: it is not empty. *)
Definition truthy (row : list value) : bool :=
  match row with [] => false | _ => true end.

(** [enumerate(l, start)] *)
Fixpoint enumerate {A : Type} (start : nat) (l : list A) : list (nat * A) :=
  match l with
  | [] => []
  | x :: l' => (start, x) :: enumerate (S start) l'
  end.

(** Lines 79-83: the number (from [i]) of the first row that holds either
    label. *)
Fixpoint find_header_row (rows : list (list value)) (i : nat) : option nat :=
  match rows with
  | [] => None
  | row :: rest =>
      if truthy row && (py_in (VStr STATUS) row || py_in (VStr TIME) row)
      then Some i
      else find_header_row rest (S i)
  end.

(** Lines 94-101: the positions of the two labels among the headers, the
    last one of each. *)
Definition column_indexes (headers : list value) : option nat * option nat :=
  fold_left
    (fun (acc : option nat * option nat) (ih : nat * value) =>
       if py_eq (snd ih) (VStr STATUS) then (Some (fst ih), snd acc)
       else if py_eq (snd ih) (VStr TIME) then (fst acc, Some (fst ih))
       else acc)
    (enumerate 0 headers) (None, None).

(** [row[idx]] on a tuple. *)
Definition tuple_getitem (row : list value) (idx : nat) : outcome value :=
  match nth_error row idx with
  | Some v => Returned v
  | None => Raised (IndexError "tuple index out of range")
  end.

(** Line 109: whether the row is passed over. *)
Definition skip_row (status_col_idx time_col_idx : nat) (row : list value)
    : outcome bool :=
  if negb (truthy row) then Returned true
  else
    a <- tuple_getitem row status_col_idx ;;
    if is_None a then Returned true
    else
      b <- tuple_getitem row time_col_idx ;;
      Returned (is_None b).

(** Lines 112-117: the dict of one row. *)
Definition make_data_row (headers row : list value) : dict :=
  fold_left
    (fun (data_row : dict) (jh : nat * value) =>
       if fst jh <? List.length row
       then dict_set (snd jh) (nth (fst jh) row VNone) data_row
       else dict_set (snd jh) VNone data_row)
    (enumerate 0 headers) [].

(** Lines 107-119: the rows below the header that have both values. *)
Fixpoint collect_data (headers : list value) (status_col_idx time_col_idx : nat)
    (rows : list (list value)) (data : list dict) : outcome (list dict) :=
  match rows with
  | [] => Returned data
  | row :: rest =>
      skip <- skip_row status_col_idx time_col_idx row ;;
      if skip then collect_data headers status_col_idx time_col_idx rest data
      else collect_data headers status_col_idx time_col_idx rest
             (data ++ [make_data_row headers row])
  end.

(** What the writing half of [process_excel_file] works from. *)
Record paired : Type := mkPaired {
  header_row : nat;
  headers : list value;
  results : list Match
}.

(** [process_excel_file] from the active sheet to the pairing, lines
    76-127.  The lines after it write [results] into the workbook. *)
Definition process_excel_file (sheet : worksheet) : outcome paired :=
  match find_header_row sheet 1 with
  | None => Raised (ValueError MSG_NO_HEADER)
  | Some header_row0 =>
      let headers0 := nth (header_row0 - 1) sheet [] in
      match column_indexes headers0 with
      | (Some status_col_idx, Some time_col_idx) =>
          data <- collect_data headers0 status_col_idx time_col_idx
                    (skipn header_row0 sheet) [] ;;
          let df := pd_DataFrame data in
          match snd (calculate_time_differences df) with
          | Returned results0 =>
              Returned {| header_row := header_row0;
                          headers := headers0;
                          results := results0 |}
          | Raised e => Raised (ValueError (MSG_WRAP ++ str e))
          | OutOfFuel => OutOfFuel
          end
      | _ => Raised (ValueError MSG_HEADER_COLUMNS)
      end
  end.

End Engine.

(** ** A parser for the examples

    [to_datetime] on the cells the examples use: a string of the exact
    shape [YYYY/MM/DD HH:MM], and a cell that already is a time. *)

Definition digit (c : ascii) : option Z :=
  let n := nat_of_ascii c in
  if (48 <=? n) && (n <=? 57) then Some (Z.of_nat (n - 48)) else None.

Fixpoint number (cs : list ascii) (acc : Z) : option Z :=
  match cs with
  | [] => Some acc
  | c :: cs' =>
      match digit c with
      | Some d => number cs' (10 * acc + d)%Z
      | None => None
      end
  end.

(** Days from 1970-01-01 to the given civil date. *)
Definition days_from_civil (y m d : Z) : Z :=
  let y' := (if m <=? 2 then y - 1 else y)%Z in
  let era := (y' / 400)%Z in
  let yoe := (y' - era * 400)%Z in
  let mp := ((m + 9) mod 12)%Z in
  let doy := ((153 * mp + 2) / 5 + d - 1)%Z in
  let doe := (yoe * 365 + yoe / 4 - yoe / 100 + doy)%Z in
  (era * 146097 + doe - 719468)%Z.

Definition days_in_month (y m : Z) : Z :=
  if (m =? 2)%Z then
    if ((y mod 4 =? 0) && (negb (y mod 100 =? 0) || (y mod 400 =? 0)))%Z
    then 29%Z else 28%Z
  else if ((m =? 4) || (m =? 6) || (m =? 9) || (m =? 11))%Z then 30%Z
  else 31%Z.

Definition parse_minute_text (s : string) : option Z :=
  match list_ascii_of_string s with
  | [y1; y2; y3; y4; s1; m1; m2; s2; d1; d2; sp; h1; h2; co; n1; n2] =>
      if (Ascii.eqb s1 "/" && Ascii.eqb s2 "/" && Ascii.eqb sp " "
          && Ascii.eqb co ":")%char
      then
        match number [y1; y2; y3; y4] 0, number [m1; m2] 0, number [d1; d2] 0,
              number [h1; h2] 0, number [n1; n2] 0 with
        | Some y, Some m, Some d, Some h, Some n =>
            if ((1 <=? m) && (m <=? 12) && (1 <=? d) && (d <=? days_in_month y m)
                && (h <=? 23) && (n <=? 59))%Z
            then Some ((((days_from_civil y m d * 24 + h) * 60 + n) * 60)
                       * 1000000000)%Z
            else None
        | _, _, _, _, _ => None
        end
      else None
  | _ => None
  end.

Definition example_to_datetime (v : value) : option Z :=
  match v with
  | VStr s => parse_minute_text s
  | VDatetime ns => Some ns
  | _ => None
  end.

(** ** Example inputs *)

(** The dict of a log row that has just the two required fields. *)
Definition log_row (direction time : value) : dict :=
  [(VStr STATUS, direction); (VStr TIME, time)].

(** A log of five rows; the fourth has a time that does not parse. *)
Definition example_log : DataFrame :=
  pd_DataFrame
    [ log_row (VStr RECEIVE) (VStr "2024/01/01 10:00");
      log_row (VStr RECEIVE) (VStr "2024/01/01 10:02");
      log_row (VStr SEND) (VStr "2024/01/01 10:05");
      log_row (VStr RECEIVE) (VStr "half past ten");
      log_row (VStr SEND) (VStr "2024/01/01 10:09") ].

Definition example_matches : list Match :=
  [ {| receive_index := 0; send_index := 2;
       receive_time := VStr "2024/01/01 10:00";
       send_time := VStr "2024/01/01 10:05";
       time_diff_minutes := FVal ((300000000000 # 1000000000) / (60 # 1)) |};
    {| receive_index := 3; send_index := 4;
       receive_time := VStr "half past ten";
       send_time := VStr "2024/01/01 10:09";
       time_diff_minutes := FNaN |} ].

(** ** Predicates of the statements *)

(** The row at position [i] is a received one, a sent one. *)
Definition is_received (df : DataFrame) (i : nat) : Prop :=
  iloc_getitem df i (VStr STATUS) = Returned (VStr RECEIVE).

Definition is_sent (df : DataFrame) (i : nat) : Prop :=
  iloc_getitem df i (VStr STATUS) = Returned (VStr SEND).

(** The two positions of a match. *)
Definition endpoints (m : Match) : nat * nat := (receive_index m, send_index m).

(** The float the engine stores for two parsed times. *)
Definition minutes_between (sent received : option Z) : pyfloat :=
  match sent, received with
  | Some a, Some b => FVal (((a - b) # 1000000000) / (60 # 1))
  | _, _ => FNaN
  end.

(** Two frames show the same labels and the same direction in every row. *)
Definition same_directions (df df' : DataFrame) : Prop :=
  len df = len df' /\
  forall i, iloc_getitem df i (VStr STATUS) = iloc_getitem df' i (VStr STATUS).

(** A row of the sheet holds one of the two labels, holds both. *)
Definition has_either (row : list value) : bool :=
  truthy row && (py_in (VStr STATUS) row || py_in (VStr TIME) row).

Definition has_both (row : list value) : bool :=
  py_in (VStr STATUS) row && py_in (VStr TIME) row.

(** All rows of the sheet have [width] cells, as the rows [iter_rows]
    yields have. *)
Definition rectangular (width : nat) (sheet : worksheet) : Prop :=
  Forall (fun row => List.length row = width) sheet.

(** What [process_excel_file] makes of the engine's outcome on the frame
    of the collected rows. *)
Definition pairing_outcome (to_datetime : value -> option Z)
    (header_row0 : nat) (headers0 : list value) (data : list dict)
    : outcome paired :=
  match snd (calculate_time_differences to_datetime (pd_DataFrame data)) with
  | Returned results0 =>
      Returned {| header_row := header_row0;
                  headers := headers0;
                  results := results0 |}
  | Raised e => Raised (ValueError (MSG_WRAP ++ str e))
  | OutOfFuel => OutOfFuel
  end.

(** A sheet with a title row that holds one of the labels above the real
    header row. *)
Definition example_titled_sheet : worksheet :=
  [ [VStr STATUS; VNone];
    [VStr STATUS; VStr TIME];
    [VStr RECEIVE; VStr "2024/01/01 10:00"];
    [VStr SEND; VStr "2024/01/01 10:05"] ].

(** A sheet whose header row is the second one, with the time column
    first and an empty row among the data. *)
Definition example_sheet : worksheet :=
  [ [VNone; VNone];
    [VStr TIME; VStr STATUS];
    [VStr "2024/01/01 10:00"; VStr RECEIVE];
    [VNone; VNone];
    [VStr "2024/01/01 10:07"; VStr SEND] ].

(** A sheet with nothing but empty cells below its header row. *)
Definition example_empty_sheet : worksheet :=
  [ [VStr STATUS; VStr TIME];
    [VNone; VNone];
    [VStr RECEIVE; VNone] ].

(** The cell of row [i] under label [k], as the frame stores it. *)
Definition cell_at (df : DataFrame) (i : nat) (k : value) : value :=
  match nth_error (records df) i with
  | Some r => cell k r
  | None => VNaN
  end.

(** The entry the engine appends for a received row [i] and a sent row [j]. *)
Definition pairing (to_datetime : value -> option Z) (df : DataFrame)
    (i j : nat) : Match :=
  {| receive_index := i;
     send_index := j;
     receive_time := cell_at df i (VStr TIME);
     send_time := cell_at df j (VStr TIME);
     time_diff_minutes :=
       minutes_between (to_datetime (cell_at df j (VStr TIME)))
                       (to_datetime (cell_at df i (VStr TIME))) |}.

(** The frame the scan runs on: the three labels are there and the
    [datetime] cell of each row is the parsed time cell. *)
Definition frame_ok (to_datetime : value -> option Z) (df : DataFrame) : Prop :=
  py_in (VStr STATUS) (columns df) = true /\
  py_in (VStr TIME) (columns df) = true /\
  py_in (VStr DATETIME) (columns df) = true /\
  forall i r, nth_error (records df) i = Some r ->
    cell (VStr DATETIME) r = timestamp_cell to_datetime (cell (VStr TIME) r).

(** The frame the engine scans: the caller's frame with the [datetime]
    column set. *)
Definition scanned (to_datetime : value -> option Z) (df : DataFrame) : DataFrame :=
  setitem_column df (VStr DATETIME)
    (map (timestamp_cell to_datetime) (map (cell (VStr TIME)) (records df))).

(** One pass of the outer loop, as a relation on its variables. *)
Inductive outer_step (to_datetime : value -> option Z) (df : DataFrame)
    (s s' : locals) : Prop :=
| step_other :
    ~ is_received df (var_i s) ->
    var_i s' = var_i s + 1 ->
    var_results s' = var_results s ->
    outer_step to_datetime df s s'
| step_unmatched :
    is_received df (var_i s) ->
    (forall k, var_i s < k < len df -> ~ is_sent df k) ->
    var_i s' = var_i s + 1 ->
    var_results s' = var_results s ->
    outer_step to_datetime df s s'
| step_matched (j : nat) :
    is_received df (var_i s) ->
    var_i s < j < len df ->
    is_sent df j ->
    (forall k, var_i s < k < j -> ~ is_sent df k) ->
    var_i s' = j ->
    var_results s' = var_results s ++ [pairing to_datetime df (var_i s) j] ->
    outer_step to_datetime df s s'.

(** The outer loop started on [s] stops on [s']. *)
Inductive scan_reaches (to_datetime : value -> option Z) (df : DataFrame)
    : locals -> locals -> Prop :=
| reaches_end (s : locals) :
    len df <= var_i s -> scan_reaches to_datetime df s s
| reaches_step (s mid s' : locals) :
    var_i s < len df ->
    outer_step to_datetime df s mid ->
    scan_reaches to_datetime df mid s' ->
    scan_reaches to_datetime df s s'.

(** The matches found so far, newest first, all end before [bound], and
    each one ends before the next one begins. *)
Fixpoint paired_before (df : DataFrame) (newest_first : list Match) (bound : nat)
    : Prop :=
  match newest_first with
  | [] => True
  | m :: older =>
      send_index m < bound /\
      receive_index m < send_index m /\
      is_received df (receive_index m) /\
      is_sent df (send_index m) /\
      (forall k, receive_index m < k < send_index m -> ~ is_sent df k) /\
      paired_before df older (receive_index m)
  end.

(** What the outer loop keeps true of its variables: the matches found so
    far end at or before the cursor, and one ends at the cursor only when
    the row there is a sent one. *)
Definition scan_invariant (df : DataFrame) (s : locals) : Prop :=
  exists bound,
    paired_before df (rev (var_results s)) bound /\
    bound <= S (var_i s) /\
    (bound = S (var_i s) -> is_sent df (var_i s)).

(** ** Further predicates

    What the engine pairs, said without the scan: [j] is the first sent
    row after the received row [i], and every received row before [i] has
    a sent row between itself and [i]. *)
Definition valid_pair (df : DataFrame) (i j : nat) : Prop :=
  is_received df i /\
  is_sent df j /\
  i < j /\
  (forall k, i < k < j -> ~ is_sent df k) /\
  (forall k, k < i -> is_received df k -> exists s, k < s < i /\ is_sent df s).

(** What the outer loop knows with the cursor at [var_i s]: its matches are
    valid pairs that end at or before the cursor, every valid pair that
    ends there is among them, and a received row behind the cursor either
    has a sent row after it up to the cursor or has none at all. *)
Definition scan_complete (df : DataFrame) (s : locals) : Prop :=
  (forall m, In m (var_results s) ->
     valid_pair df (receive_index m) (send_index m) /\
     send_index m <= var_i s) /\
  (forall i j, valid_pair df i j -> j <= var_i s ->
     exists m, In m (var_results s) /\ endpoints m = (i, j)) /\
  (forall k, k < var_i s -> is_received df k ->
     (exists s0, k < s0 <= var_i s /\ is_sent df s0) \/
     (forall s0, k < s0 -> ~ is_sent df s0)).

(** Two frames have the same number of rows and show the same direction
    and the same time cell in every row. *)
Definition same_log (df df' : DataFrame) : Prop :=
  same_directions df df' /\
  forall i, iloc_getitem df i (VStr TIME) = iloc_getitem df' i (VStr TIME).

(** The log of [example_log] with one more field in every row. *)
Definition example_log_with_names : DataFrame :=
  pd_DataFrame
    (map (fun r => r ++ [(VStr "用户昵称", VStr "someone")]) (records example_log)).

(** A row below the header that the reader keeps: it is not empty and has
    a value in both required columns. *)
Definition kept (status_col_idx time_col_idx : nat) (row : list value) : bool :=
  truthy row
  && negb (is_None (nth status_col_idx row VNone))
  && negb (is_None (nth time_col_idx row VNone)).

(** ** The writer

    The writing half of [process_excel_file]: the duration column of the
    log sheet (lines 129-151) and the cells of the summary sheet (lines
    168-182).  What these lines do to a sheet is the list of their cell
    assignments, in the order they are made.  The two loops that set the
    widths of the columns (lines 153-161 and 184-192) assign no cell and
    are not modelled. *)

Definition TIME_DIFF : string := "时间差(分钟)".
Definition HIGHLIGHT : string := "FFFF00".
Definition SUMMARY_HEADERS : list string :=
  ["序号"; "接收行号"; "接收时间"; "发出行号"; "发出时间"; "时间差(分钟)"].

(** What the writer puts into a cell: a value it took from the sheet or
    made itself, or a float. *)
Inductive content : Type :=
| Plain (v : value)
| Number (x : pyfloat).

(** [sheet.cell(row, column).value = v] and the three style assignments;
    rows and columns count from 1. *)
Inductive assignment : Type :=
| SetValue (row column : nat) (v : content)
| SetFont (row column : nat) (bold : bool)
| SetFill (row column : nat) (color : string)
| SetAlignment (row column : nat) (horizontal : string).

(** The value a cell has got from a list of assignments, if any: the last
    one made to it. *)
Fixpoint value_written (log : list assignment) (row column : nat) : option content :=
  match log with
  | [] => None
  | a :: rest =>
      match value_written rest row column with
      | Some v => Some v
      | None =>
          match a with
          | SetValue r c v => if (r =? row) && (c =? column) then Some v else None
          | _ => None
          end
      end
  end.

(** Lines 130-134: the first header that is the duration label. *)
Fixpoint find_time_diff_col (ihs : list (nat * value)) : option nat :=
  match ihs with
  | [] => None
  | (i, header) :: rest =>
      if py_eq header (VStr TIME_DIFF) then Some i else find_time_diff_col rest
  end.

Section Writer.

(** [round(x, 2)], Python's own. *)
Variable round2 : pyfloat -> pyfloat.

(** Lines 130-141: the position of the duration column, the headers as
    they are afterwards, and the assignments made when the column is
    new. *)
Definition time_diff_column (header_row0 : nat) (headers0 : list value)
    : nat * list value * list assignment :=
  match find_time_diff_col (enumerate 0 headers0) with
  | Some time_diff_col => (time_diff_col, headers0, [])
  | None =>
      let time_diff_col := List.length headers0 in
      (time_diff_col, headers0 ++ [VStr TIME_DIFF],
       [ SetValue header_row0 (time_diff_col + 1) (Plain (VStr TIME_DIFF));
         SetFont header_row0 (time_diff_col + 1) true ])
  end.

(** Lines 146-151, one pass. *)
Definition write_result (header_row0 time_diff_col : nat) (result : Match)
    : list assignment :=
  [ SetValue (receive_index result + header_row0 + 1) (time_diff_col + 1)
      (Number (round2 (time_diff_minutes result)));
    SetFill (receive_index result + header_row0 + 1) (time_diff_col + 1) HIGHLIGHT;
    SetAlignment (receive_index result + header_row0 + 1) (time_diff_col + 1) "right" ].

(** Lines 129-151: all assignments to the log sheet. *)
Definition write_time_diffs (p : paired) : list assignment :=
  let '(time_diff_col, _, new_header) := time_diff_column (header_row p) (headers p) in
  new_header ++ flat_map (write_result (header_row p) time_diff_col) (results p).

(** Lines 170-173. *)
Definition write_summary_headers : list assignment :=
  flat_map (fun ih : nat * string =>
              [ SetValue 1 (fst ih) (Plain (VStr (snd ih)));
                SetFont 1 (fst ih) true ])
           (enumerate 1 SUMMARY_HEADERS).

(** Lines 177-182, one pass. *)
Definition write_summary_row (header_row0 : nat) (i : nat) (result : Match)
    : list assignment :=
  [ SetValue (i + 1) 1 (Plain (VInt (Z.of_nat i)));
    SetValue (i + 1) 2 (Plain (VInt (Z.of_nat (receive_index result + header_row0 + 1))));
    SetValue (i + 1) 3 (Plain (receive_time result));
    SetValue (i + 1) 4 (Plain (VInt (Z.of_nat (send_index result + header_row0 + 1))));
    SetValue (i + 1) 5 (Plain (send_time result));
    SetValue (i + 1) 6 (Number (round2 (time_diff_minutes result))) ].

(** Lines 168-182: all assignments to the new summary sheet. *)
Definition write_summary (p : paired) : list assignment :=
  write_summary_headers ++
  flat_map (fun ir : nat * Match => write_summary_row (header_row p) (fst ir) (snd ir))
           (enumerate 1 (results p)).

End Writer.

(** [round(x, 2)] for the examples: the exact value rounded to hundredths,
    a tie going to the even one. *)
Definition example_round2 (x : pyfloat) : pyfloat :=
  match x with
  | FNaN => FNaN
  | FVal q =>
      let scaled := (Qnum q * 100)%Z in
      let den := Zpos (Qden q) in
      let low := (scaled / den)%Z in
      let twice_rest := (2 * (scaled mod den))%Z in
      let hundredths :=
        if (twice_rest <? den)%Z then low
        else if (den <? twice_rest)%Z then (low + 1)%Z
        else if Z.even low then low else (low + 1)%Z in
      FVal (hundredths # 100)
  end.

(** * Properties *)

Example literals_distinct :
  (RECEIVE =? SEND)%string = false /\ (STATUS =? TIME)%string = false /\
  (DATETIME =? STATUS)%string = false /\ (DATETIME =? TIME)%string = false.
Proof. repeat split; reflexivity. Qed.

(** ** Values and dicts *)

Lemma py_eq_str_inv (v : value) (s : string) :
  py_eq v (VStr s) = true -> v = VStr s.
Proof.
  destruct v; unfold py_eq; try discriminate.
  intros H. apply String.eqb_eq in H. now subst.
Qed.

Lemma py_eq_str_refl (s : string) : py_eq (VStr s) (VStr s) = true.
Proof. unfold py_eq. apply String.eqb_refl. Qed.

#[local] Arguments py_eq : simpl never.

Lemma py_eq_str_neq (v : value) (s : string) :
  py_eq v (VStr s) = false -> v <> VStr s.
Proof. intros H ->. rewrite py_eq_str_refl in H. discriminate. Qed.

Lemma dict_get_set_same (s : string) (v : value) (d : dict) :
  dict_get (VStr s) (dict_set (VStr s) v d) = Some v.
Proof.
  induction d as [|[k w] d IH]; simpl.
  - now rewrite py_eq_str_refl.
  - destruct (py_eq k (VStr s)) eqn:E; simpl; rewrite E; auto.
Qed.

Lemma dict_get_set_other (s : string) (v k : value) (d : dict) :
  py_eq (VStr s) k = false ->
  dict_get k (dict_set (VStr s) v d) = dict_get k d.
Proof.
  intros Hk. induction d as [|[k0 w] d IH]; simpl.
  - now rewrite Hk.
  - destruct (py_eq k0 (VStr s)) eqn:E; simpl.
    + apply py_eq_str_inv in E. subst k0. now rewrite Hk.
    + now rewrite IH.
Qed.

Lemma py_in_app (k : value) (l1 l2 : list value) :
  py_in k (l1 ++ l2) = py_in k l1 || py_in k l2.
Proof. unfold py_in. apply existsb_app. Qed.

Lemma py_in_add_label_same (s : string) (cols : list value) :
  py_in (VStr s) (add_label (VStr s) cols) = true.
Proof.
  unfold add_label. destruct (py_in (VStr s) cols) eqn:E; auto.
  rewrite py_in_app, E. simpl. now rewrite py_eq_str_refl.
Qed.

Lemma py_in_add_label_other (s : string) (k : value) (cols : list value) :
  py_eq (VStr s) k = false ->
  py_in k (add_label (VStr s) cols) = py_in k cols.
Proof.
  intros Hk. unfold add_label. destruct (py_in (VStr s) cols); auto.
  rewrite py_in_app. unfold py_in at 2. cbn [existsb].
  rewrite Hk. now rewrite !orb_false_r.
Qed.

(** ** Column assignment *)

Lemma assign_cells_length (k : value) (rs : list dict) (vs : list value) :
  List.length (assign_cells k rs vs) = List.length rs.
Proof.
  revert vs. induction rs as [|r rs IH]; intros [|v vs]; simpl; auto.
Qed.

Lemma assign_cells_map_nth (k : value) (f : dict -> value) (rs : list dict) (i : nat) :
  nth_error (assign_cells k rs (map f rs)) i =
  option_map (fun r => dict_set k (f r) r) (nth_error rs i).
Proof.
  revert i. induction rs as [|r rs IH]; intros [|i]; simpl; auto.
Qed.

Lemma setitem_column_len (df : DataFrame) (k : value) (vs : list value) :
  len (setitem_column df k vs) = len df.
Proof. unfold len, setitem_column. simpl. apply assign_cells_length. Qed.

(** A column assignment under a string label leaves every other label's
    cells as they were. *)
Lemma setitem_column_other (df : DataFrame) (s : string) (f : dict -> value)
    (k : value) (i : nat) :
  py_eq (VStr s) k = false ->
  iloc_getitem (setitem_column df (VStr s) (map f (records df))) i k =
  iloc_getitem df i k.
Proof.
  intros Hk. unfold iloc_getitem, iloc, setitem_column. simpl.
  rewrite assign_cells_map_nth.
  destruct (nth_error (records df) i) as [r|]; simpl; auto.
  unfold getitem. simpl. rewrite py_in_add_label_other by exact Hk.
  unfold cell. now rewrite dict_get_set_other.
Qed.


(** ** Reading the scanned frame *)

Section Scan.

Variable to_datetime : value -> option Z.

Lemma iloc_getitem_cell_at (df : DataFrame) (i : nat) (k : value) :
  py_in k (columns df) = true -> i < len df ->
  iloc_getitem df i k = Returned (cell_at df i k).
Proof.
  intros Hk Hi. unfold iloc_getitem, iloc, cell_at.
  destruct (nth_error (records df) i) as [r|] eqn:E.
  - simpl. unfold getitem. simpl. now rewrite Hk.
  - apply nth_error_None in E. unfold len in Hi. lia.
Qed.

Lemma received_not_sent (df : DataFrame) (i : nat) :
  is_received df i -> ~ is_sent df i.
Proof. unfold is_received, is_sent. intros -> H. discriminate. Qed.

Lemma scanned_len (df : DataFrame) : len (scanned to_datetime df) = len df.
Proof. apply setitem_column_len. Qed.

Lemma scanned_other (df : DataFrame) (k : value) (i : nat) :
  py_eq (VStr DATETIME) k = false ->
  iloc_getitem (scanned to_datetime df) i k = iloc_getitem df i k.
Proof.
  intros Hk. unfold scanned. rewrite map_map.
  now apply setitem_column_other.
Qed.

Lemma scanned_cell_at_time (df : DataFrame) (i : nat) :
  cell_at (scanned to_datetime df) i (VStr TIME) = cell_at df i (VStr TIME).
Proof.
  unfold cell_at, scanned, setitem_column. simpl. rewrite map_map.
  rewrite assign_cells_map_nth.
  destruct (nth_error (records df) i) as [r|]; simpl; auto.
  unfold cell. now rewrite dict_get_set_other.
Qed.

Lemma scanned_ok (df : DataFrame) :
  py_in (VStr STATUS) (columns df) = true ->
  py_in (VStr TIME) (columns df) = true ->
  frame_ok to_datetime (scanned to_datetime df).
Proof.
  intros Hs Ht. unfold frame_ok, scanned. rewrite map_map.
  unfold setitem_column; simpl. repeat split.
  - now rewrite py_in_add_label_other.
  - now rewrite py_in_add_label_other.
  - apply py_in_add_label_same.
  - intros i r Hr. rewrite assign_cells_map_nth in Hr.
    destruct (nth_error (records df) i) as [r0|]; simpl in Hr; [|discriminate].
    injection Hr as <-. unfold cell at 1 3.
    rewrite dict_get_set_same.
    now rewrite dict_get_set_other.
Qed.

(** ** The inner loop *)

Lemma timestamps_minutes (a b : value) :
  exists td,
    sub_timestamps (timestamp_cell to_datetime a) (timestamp_cell to_datetime b)
      = Returned td /\
    fdiv (total_seconds td) 60 = minutes_between (to_datetime a) (to_datetime b).
Proof.
  unfold timestamp_cell, minutes_between.
  destruct (to_datetime a), (to_datetime b); simpl; eauto.
Qed.

Section InnerLoop.

Variable df : DataFrame.
Hypothesis Hok : frame_ok to_datetime df.
Variable i0 : nat.
Variable r0 : dict.
Hypothesis Hr0 : nth_error (records df) i0 = Some r0.
Variable results0 : list Match.

Let row0 : Series := {| s_index := columns df; s_data := r0 |}.
Let receive_time0 : value := cell (VStr DATETIME) r0.

Lemma inner_body_spec (j : nat) :
  j < len df ->
  let s := {| var_i := i0; var_j := j; var_results := results0 |} in
  (is_sent df j /\
   inner_body df row0 i0 receive_time0 s =
     Returned (Break {| var_i := j; var_j := j;
                        var_results := results0 ++ [pairing to_datetime df i0 j] |}))
  \/
  (~ is_sent df j /\
   inner_body df row0 i0 receive_time0 s =
     Returned (Continue {| var_i := i0; var_j := j + 1; var_results := results0 |})).
Proof.
  intros Hj s. destruct Hok as (Hs & Ht & Hd & Hcells).
  unfold inner_body, is_sent. subst s. cbn [var_i var_j var_results].
  rewrite !iloc_getitem_cell_at by assumption.
  cbn [bind].
  destruct (py_eq (cell_at df j (VStr STATUS)) (VStr SEND)) eqn:E.
  - left. apply py_eq_str_inv in E. split; [now rewrite E|].
    assert (Hrj : exists rj, nth_error (records df) j = Some rj).
    { destruct (nth_error (records df) j) eqn:En; eauto.
      apply nth_error_None in En. unfold len in Hj. lia. }
    destruct Hrj as [rj Hrj].
    assert (Hcj : cell_at df j (VStr DATETIME) =
                  timestamp_cell to_datetime (cell_at df j (VStr TIME))).
    { unfold cell_at. rewrite Hrj. now apply (Hcells j). }
    rewrite Hcj. subst receive_time0. rewrite (Hcells i0 r0 Hr0).
    destruct (timestamps_minutes (cell_at df j (VStr TIME)) (cell (VStr TIME) r0))
      as (td & Htd & Hmin).
    rewrite Htd. cbn [bind].
    unfold getitem, row0. cbn [s_index s_data]. rewrite Ht. cbn [bind].
    assert (Hci : cell_at df i0 (VStr TIME) = cell (VStr TIME) r0).
    { unfold cell_at. now rewrite Hr0. }
    unfold pairing. rewrite Hmin, Hci. reflexivity.
  - right. apply py_eq_str_neq in E. split; [|reflexivity].
    intros H. injection H as H. contradiction.
Qed.

Lemma inner_loop_spec (fuel j : nat) :
  i0 < j <= len df ->
  len df - j < fuel ->
  (forall k, i0 < k < j -> ~ is_sent df k) ->
  exists s1,
    while_loop fuel (fun s' => var_j s' <? len df)
      (inner_body df row0 i0 receive_time0)
      {| var_i := i0; var_j := j; var_results := results0 |} = Returned s1 /\
    ((var_j s1 = len df /\ var_i s1 = i0 /\ var_results s1 = results0 /\
      forall k, i0 < k < len df -> ~ is_sent df k)
     \/
     (i0 < var_j s1 < len df /\ var_i s1 = var_j s1 /\ is_sent df (var_j s1) /\
      (forall k, i0 < k < var_j s1 -> ~ is_sent df k) /\
      var_results s1 = results0 ++ [pairing to_datetime df i0 (var_j s1)])).
Proof.
  revert j. induction fuel as [|fuel IH]; intros j Hj Hfuel Hnone; [lia|].
  cbn [while_loop var_j].
  destruct (j <? len df) eqn:Ej.
  - apply Nat.ltb_lt in Ej.
    destruct (inner_body_spec j Ej) as [[Hsent ->]|[Hnot ->]].
    + eexists; split; [reflexivity|]. right. cbn [var_i var_j var_results].
      repeat split; auto; lia.
    + apply IH; [lia|lia|].
      intros k Hk. destruct (Nat.eq_dec k j) as [->|]; auto.
      apply Hnone. lia.
  - apply Nat.ltb_ge in Ej. eexists; split; [reflexivity|]. left.
    cbn [var_i var_j var_results]. repeat split; auto; try lia.
    intros k Hk. apply Hnone. lia.
Qed.

End InnerLoop.

(** ** The outer loop *)

Lemma outer_step_advances (df : DataFrame) (s s' : locals) :
  var_i s < len df -> outer_step to_datetime df s s' ->
  var_i s < var_i s' <= len df.
Proof. intros Hi [? ? ?|? ? ? ?|j ? ? ? ? ? ?]; lia. Qed.

Lemma outer_body_spec (df : DataFrame) (fuel : nat) (s : locals) :
  frame_ok to_datetime df -> var_i s < len df -> len df < fuel ->
  exists s', outer_body fuel df s = Returned (Continue s') /\
             outer_step to_datetime df s s'.
Proof.
  intros Hok Hi Hfuel. pose proof Hok as (Hs & Ht & Hd & Hcells).
  assert (Hr0 : exists r0, nth_error (records df) (var_i s) = Some r0).
  { destruct (nth_error (records df) (var_i s)) eqn:En; eauto.
    apply nth_error_None in En. unfold len in Hi. lia. }
  destruct Hr0 as [r0 Hr0].
  assert (Hstat : iloc_getitem df (var_i s) (VStr STATUS) =
                  Returned (cell (VStr STATUS) r0)).
  { rewrite iloc_getitem_cell_at by assumption. unfold cell_at. now rewrite Hr0. }
  unfold outer_body, iloc. rewrite Hr0. cbn [bind].
  unfold getitem at 1. cbn [s_index s_data]. rewrite Hs. cbn [bind].
  destruct (py_eq (cell (VStr STATUS) r0) (VStr RECEIVE)) eqn:E.
  - apply py_eq_str_inv in E.
    assert (Hrecv : is_received df (var_i s)).
    { unfold is_received. now rewrite Hstat, E. }
    unfold getitem at 1. cbn [s_index s_data]. rewrite Hd. cbn [bind].
    destruct (inner_loop_spec df Hok (var_i s) r0 Hr0 (var_results s) fuel
                (var_i s + 1)) as (s1 & -> & Hpost); [lia|lia|intros; lia|].
    cbn [bind].
    destruct Hpost as [(Hj & Hi1 & Hres & Hnone)|(Hj & Hi1 & Hsent & Hnone & Hres)].
    + rewrite Hj, Nat.eqb_refl. eexists; split; [reflexivity|].
      apply step_unmatched; cbn [var_i var_results]; auto; lia.
    + replace (var_j s1 =? len df) with false
        by (symmetry; apply Nat.eqb_neq; lia).
      eexists; split; [reflexivity|].
      apply (step_matched _ _ _ _ (var_j s1)); auto.
  - apply py_eq_str_neq in E.
    eexists; split; [reflexivity|].
    apply step_other; cbn [var_i var_results]; auto.
    unfold is_received. rewrite Hstat. intros H. injection H as H. contradiction.
Qed.

Lemma scan_loop_spec (df : DataFrame) (fuel0 fuel : nat) (s : locals) :
  frame_ok to_datetime df -> len df < fuel0 ->
  var_i s <= len df -> len df - var_i s < fuel ->
  exists s',
    while_loop fuel (fun s => var_i s <? len df) (outer_body fuel0 df) s
      = Returned s' /\
    scan_reaches to_datetime df s s' /\ var_i s' = len df.
Proof.
  intros Hok Hfuel0. revert s.
  induction fuel as [|fuel IH]; intros s Hi Hfuel; [lia|].
  cbn [while_loop]. destruct (var_i s <? len df) eqn:E.
  - apply Nat.ltb_lt in E.
    destruct (outer_body_spec df fuel0 s Hok E Hfuel0) as (mid & -> & Hstep).
    pose proof (outer_step_advances df s mid E Hstep) as Hadv.
    destruct (IH mid) as (s' & Hrun & Hreach & Hend); [lia|lia|].
    exists s'. repeat split; auto.
    now apply (reaches_step _ _ s mid s').
  - apply Nat.ltb_ge in E. exists s. repeat split; [|lia].
    now apply reaches_end.
Qed.

(** The engine on a frame that has both labels: the frame it leaves, and
    the matches of a scan that stopped at the end of the frame. *)
Lemma engine_spec (df : DataFrame) (fuel : nat) :
  py_in (VStr STATUS) (columns df) = true ->
  py_in (VStr TIME) (columns df) = true ->
  len df < fuel ->
  exists s,
    calculate_time_differences_fuel to_datetime fuel df =
      (scanned to_datetime df, Returned (var_results s)) /\
    scan fuel (scanned to_datetime df) = Returned s /\
    scan_reaches to_datetime (scanned to_datetime df)
      {| var_i := 0; var_j := 0; var_results := [] |} s /\
    var_i s = len df.
Proof.
  intros Hs Ht Hfuel.
  pose proof (scanned_ok df Hs Ht) as Hok.
  destruct (scan_loop_spec (scanned to_datetime df) fuel fuel
              {| var_i := 0; var_j := 0; var_results := [] |} Hok)
    as (s & Hrun & Hreach & Hend).
  - now rewrite scanned_len.
  - cbn [var_i]. lia.
  - cbn [var_i]. rewrite scanned_len. lia.
  - exists s. rewrite scanned_len in Hend. repeat split; auto.
    unfold calculate_time_differences_fuel. rewrite Hs, Ht. cbn [negb orb].
    unfold getitem_column. rewrite Ht.
    fold (scanned to_datetime df). unfold scan. rewrite Hrun. reflexivity.
Qed.

(** ** What the scan keeps true *)

Lemma paired_before_weaken (df : DataFrame) (ms : list Match) (b b' : nat) :
  paired_before df ms b -> b <= b' -> paired_before df ms b'.
Proof.
  destruct ms as [|m ms]; simpl; auto.
  intros (H1 & H2) Hb. split; auto. lia.
Qed.

Lemma outer_step_invariant (df : DataFrame) (s s' : locals) :
  outer_step to_datetime df s s' ->
  scan_invariant df s -> scan_invariant df s'.
Proof.
  intros Hstep (b & Hp & Hb & Hsent).
  destruct Hstep as [Hn Hi Hr|Hrecv Hnone Hi Hr|j Hrecv Hj Hsj Hnone Hi Hr].
  - exists b. rewrite Hr. repeat split; auto; lia.
  - exists b. rewrite Hr. repeat split; auto; lia.
  - assert (Hbi : b <= var_i s).
    { destruct (Nat.eq_dec b (S (var_i s))) as [Heq|]; [|lia].
      exfalso. apply (received_not_sent df (var_i s)); auto. }
    exists (S j). rewrite Hr, rev_app_distr, Hi. cbn [rev app paired_before].
    change (receive_index (pairing to_datetime df (var_i s) j)) with (var_i s).
    change (send_index (pairing to_datetime df (var_i s) j)) with j.
    split; [|split; [lia|auto]].
    split; [lia|]. split; [lia|]. split; [exact Hrecv|].
    split; [exact Hsj|]. split; [exact Hnone|].
    now apply paired_before_weaken with b.
Qed.

Lemma scan_reaches_invariant (df : DataFrame) (s s' : locals) :
  scan_reaches to_datetime df s s' ->
  scan_invariant df s -> scan_invariant df s'.
Proof.
  induction 1 as [s Hend|s mid s' Hi Hstep Hreach IH]; auto.
  intros Hinv. apply IH. now apply outer_step_invariant with s.
Qed.

(** Every entry of [results] is the one the two rows determine. *)
Lemma scan_reaches_pairings (df : DataFrame) (s s' : locals) :
  scan_reaches to_datetime df s s' ->
  Forall (fun m => m = pairing to_datetime df (receive_index m) (send_index m))
         (var_results s) ->
  Forall (fun m => m = pairing to_datetime df (receive_index m) (send_index m))
         (var_results s').
Proof.
  induction 1 as [s Hend|s mid s' Hi Hstep Hreach IH]; auto.
  intros Hall. apply IH.
  destruct Hstep as [Hn Hi' Hr|Hrecv Hnone Hi' Hr|j Hrecv Hj Hsj Hnone Hi' Hr];
    rewrite Hr; auto.
  apply Forall_app. split; auto.
Qed.

Lemma paired_before_scanned (df : DataFrame) (ms : list Match) (b : nat) :
  paired_before (scanned to_datetime df) ms b -> paired_before df ms b.
Proof.
  revert b. induction ms as [|m ms IH]; simpl; auto.
  unfold is_received, is_sent in *.
  intros b (H1 & H2 & H3 & H4 & H5 & H6).
  rewrite !scanned_other in H3, H4 by reflexivity.
  repeat split; auto.
  intros k Hk Hsent. apply (H5 k Hk). now rewrite scanned_other.
Qed.

(** What a returned list of matches tells: the frame had both labels, and
    the matches are ordered pairs of the caller's frame. *)
Lemma engine_returned (df : DataFrame) (ms : list Match) :
  snd (calculate_time_differences to_datetime df) = Returned ms ->
  (py_in (VStr STATUS) (columns df) = true /\
   py_in (VStr TIME) (columns df) = true) /\
  (exists b, paired_before df (rev ms) b) /\
  Forall (fun m => m = pairing to_datetime df (receive_index m) (send_index m)) ms.
Proof.
  intros Hret.
  destruct (py_in (VStr STATUS) (columns df)) eqn:Hs;
    [destruct (py_in (VStr TIME) (columns df)) eqn:Ht|].
  - destruct (engine_spec df (S (len df)) Hs Ht) as (s & Hrun & _ & Hreach & Hend);
      [lia|].
    unfold calculate_time_differences in Hret. rewrite Hrun in Hret.
    cbn [snd] in Hret. injection Hret as <-.
    split; [auto|split].
    + destruct (scan_reaches_invariant _ _ _ Hreach) as (b & Hp & _).
      { exists 0. cbn. repeat split; auto; lia. }
      exists b. now apply paired_before_scanned.
    + pose proof (scan_reaches_pairings _ _ _ Hreach (Forall_nil _)) as Hall.
      eapply Forall_impl; [|exact Hall].
      intros m Hm. cbv beta in Hm. rewrite Hm at 1.
      unfold pairing. now rewrite !scanned_cell_at_time.
  - unfold calculate_time_differences, calculate_time_differences_fuel in Hret.
    rewrite Hs, Ht in Hret. discriminate.
  - unfold calculate_time_differences, calculate_time_differences_fuel in Hret.
    rewrite Hs in Hret. discriminate.
Qed.

Lemma paired_before_bounds (df : DataFrame) (ms : list Match) (b : nat) :
  paired_before df ms b ->
  forall m, In m ms -> receive_index m < send_index m /\ send_index m < b.
Proof.
  revert b. induction ms as [|m0 ms IH]; simpl; [tauto|].
  intros b (H1 & H2 & _ & _ & _ & H6) m [<-|Hin]; [lia|].
  destruct (IH _ H6 m Hin). lia.
Qed.

Lemma paired_before_each (df : DataFrame) (ms : list Match) (b : nat) :
  paired_before df ms b ->
  forall m, In m ms ->
    is_received df (receive_index m) /\ is_sent df (send_index m) /\
    forall k, receive_index m < k < send_index m -> ~ is_sent df k.
Proof.
  revert b. induction ms as [|m0 ms IH]; simpl; [tauto|].
  intros b (_ & _ & H3 & H4 & H5 & H6) m [<-|Hin]; auto.
  now apply (IH _ H6).
Qed.

End Scan.

(** ** The scan is decided by the directions *)

Section TwoFrames.

Variables to_datetime to_datetime' : value -> option Z.
Variables df df' : DataFrame.
Hypothesis Hsame : same_directions df df'.

Lemma same_directions_received (i : nat) :
  is_received df i <-> is_received df' i.
Proof. unfold is_received. destruct Hsame as (_ & H). now rewrite H. Qed.

Lemma same_directions_sent (i : nat) :
  is_sent df i <-> is_sent df' i.
Proof. unfold is_sent. destruct Hsame as (_ & H). now rewrite H. Qed.

Lemma outer_step_same_endpoints (s1 s1' s2 s2' : locals) :
  outer_step to_datetime df s1 s1' ->
  outer_step to_datetime' df' s2 s2' ->
  var_i s1 = var_i s2 ->
  map endpoints (var_results s1) = map endpoints (var_results s2) ->
  var_i s1' = var_i s2' /\
  map endpoints (var_results s1') = map endpoints (var_results s2').
Proof.
  pose proof Hsame as (Hlen & _).
  intros [Hn Hi Hr|Hrecv Hnone Hi Hr|j Hrecv Hj Hsj Hnone Hi Hr]
         [Hn' Hi' Hr'|Hrecv' Hnone' Hi' Hr'|j' Hrecv' Hj' Hsj' Hnone' Hi' Hr']
         Hcur Hres;
    rewrite Hr, Hr', ?Hi, ?Hi';
    try (split; [lia|exact Hres]);
    try (exfalso; rewrite Hcur in *;
         first [ apply Hn; now apply same_directions_received
               | apply Hn'; now apply same_directions_received ]).
  - exfalso. apply (Hnone j'); [lia|]. now apply same_directions_sent.
  - exfalso. apply (Hnone' j); [lia|]. now apply same_directions_sent.
  - assert (Hjj : j' = j).
    { destruct (Nat.lt_total j j') as [Hlt|[Heq|Hgt]]; auto; exfalso.
      - apply (Hnone' j); [lia|]. now apply same_directions_sent.
      - apply (Hnone j'); [lia|]. now apply same_directions_sent. }
    rewrite Hjj. split; [reflexivity|].
    rewrite !map_app, Hres, Hcur. reflexivity.
Qed.

Lemma scan_reaches_same_endpoints (s1 s1' : locals) :
  scan_reaches to_datetime df s1 s1' ->
  forall s2 s2',
    scan_reaches to_datetime' df' s2 s2' ->
    var_i s1 = var_i s2 ->
    map endpoints (var_results s1) = map endpoints (var_results s2) ->
    map endpoints (var_results s1') = map endpoints (var_results s2').
Proof.
  pose proof Hsame as (Hlen & _).
  induction 1 as [s1 Hend|s1 mid1 s1' Hi Hstep Hreach IH];
    intros s2 s2' Hreach2 Hcur Hres.
  - destruct Hreach2 as [s2 Hend2|s2 mid2 s2' Hi2 Hstep2 Hreach2]; [exact Hres|lia].
  - destruct Hreach2 as [s2 Hend2|s2 mid2 s2' Hi2 Hstep2 Hreach2]; [lia|].
    destruct (outer_step_same_endpoints _ _ _ _ Hstep Hstep2 Hcur Hres).
    now apply (IH mid2 s2').
Qed.

End TwoFrames.

Lemma same_directions_refl (df : DataFrame) : same_directions df df.
Proof. split; auto. Qed.

Lemma pairings_from_endpoints (to_datetime : value -> option Z) (df : DataFrame)
    (ms : list Match) :
  Forall (fun m => m = pairing to_datetime df (receive_index m) (send_index m)) ms ->
  ms = map (fun rs => pairing to_datetime df (fst rs) (snd rs)) (map endpoints ms).
Proof.
  induction 1 as [|m ms Hm Hall IH]; simpl; auto.
  now rewrite <- Hm, <- IH.
Qed.

(** The matches do not depend on the fuel, once there is enough of it. *)
Lemma engine_fuel_irrelevant (to_datetime : value -> option Z) (df : DataFrame)
    (fuel : nat) :
  len df < fuel ->
  calculate_time_differences_fuel to_datetime fuel df =
  calculate_time_differences to_datetime df.
Proof.
  intros Hfuel. unfold calculate_time_differences.
  destruct (py_in (VStr STATUS) (columns df)) eqn:Hs;
    [destruct (py_in (VStr TIME) (columns df)) eqn:Ht|].
  - destruct (engine_spec to_datetime df fuel Hs Ht Hfuel)
      as (s1 & -> & _ & Hreach1 & _).
    destruct (engine_spec to_datetime df (S (len df)) Hs Ht)
      as (s2 & -> & _ & Hreach2 & _); [lia|].
    f_equal. f_equal.
    pose proof (scan_reaches_pairings _ _ _ _ Hreach1 (Forall_nil _)) as H1.
    pose proof (scan_reaches_pairings _ _ _ _ Hreach2 (Forall_nil _)) as H2.
    rewrite (pairings_from_endpoints _ _ _ H1), (pairings_from_endpoints _ _ _ H2).
    f_equal.
    apply (scan_reaches_same_endpoints to_datetime to_datetime _ _
             (same_directions_refl _) _ _ Hreach1 _ _ Hreach2); reflexivity.
  - unfold calculate_time_differences_fuel. now rewrite Hs, Ht.
  - unfold calculate_time_differences_fuel. now rewrite Hs.
Qed.

(** ** The matches of the engine *)

Lemma paired_before_sorted (df : DataFrame) (ms : list Match) (b : nat) :
  paired_before df (rev ms) b ->
  forall p q m1 m2, p < q ->
    nth_error ms p = Some m1 -> nth_error ms q = Some m2 ->
    receive_index m1 < send_index m1 /\ send_index m1 < receive_index m2 /\
    receive_index m2 < send_index m2.
Proof.
  revert b. induction ms as [|m ms IH] using rev_ind; intros b Hp p q m1 m2 Hpq H1 H2.
  - destruct p; discriminate.
  - rewrite rev_app_distr in Hp. cbn [rev app paired_before] in Hp.
    destruct Hp as (_ & Hm & _ & _ & _ & Hold).
    assert (Hq : q < List.length (ms ++ [m])) by (apply nth_error_Some; congruence).
    rewrite length_app in Hq. cbn in Hq.
    destruct (Nat.eq_dec q (List.length ms)) as [->|Hne].
    + rewrite nth_error_app2, Nat.sub_diag in H2 by lia. injection H2 as <-.
      rewrite nth_error_app1 in H1 by lia.
      apply nth_error_In, in_rev in H1.
      destruct (paired_before_bounds df _ _ Hold m1 H1). lia.
    + rewrite nth_error_app1 in H1, H2 by lia.
      now apply (IH _ Hold p q).
Qed.

(** C1: in every match the engine emits, the row at [receive_index] is a
    received one, the row at [send_index] is a sent one that comes later,
    and no row strictly between the two is a sent one: the sent row is the
    next sent row after the received one. *)
Theorem match_is_received_then_next_sent
    (to_datetime : value -> option Z) (df : DataFrame) (ms : list Match) (m : Match) :
  snd (calculate_time_differences to_datetime df) = Returned ms ->
  In m ms ->
  is_received df (receive_index m) /\
  is_sent df (send_index m) /\
  receive_index m < send_index m /\
  forall k, receive_index m < k < send_index m -> ~ is_sent df k.
Proof.
  intros Hret Hin.
  destruct (engine_returned to_datetime df ms Hret) as (_ & (b & Hp) & _).
  apply in_rev in Hin.
  destruct (paired_before_each df _ _ Hp m Hin) as (H1 & H2 & H3).
  destruct (paired_before_bounds df _ _ Hp m Hin) as (H4 & _).
  auto.
Qed.

Lemma match_is_received_then_next_sent_witness :
  is_received example_log 0 /\
  is_sent example_log 2 /\
  0 < 2 /\
  forall k, 0 < k < 2 -> ~ is_sent example_log k.
Proof.
  apply (match_is_received_then_next_sent example_to_datetime example_log
           example_matches (nth 0 example_matches (mkMatch 0 0 VNone VNone FNaN))).
  - vm_compute. reflexivity.
  - left. reflexivity.
Defined.

(** C2: every match the engine emits has its [send_index] strictly greater
    than its [receive_index]. *)
Theorem send_index_after_receive_index
    (to_datetime : value -> option Z) (df : DataFrame) (ms : list Match) (m : Match) :
  snd (calculate_time_differences to_datetime df) = Returned ms ->
  In m ms ->
  send_index m > receive_index m.
Proof.
  intros Hret Hin.
  destruct (engine_returned to_datetime df ms Hret) as (_ & (b & Hp) & _).
  apply in_rev in Hin.
  destruct (paired_before_bounds df _ _ Hp m Hin) as (H & _). exact H.
Qed.

Lemma send_index_after_receive_index_witness : 4 > 3.
Proof.
  apply (send_index_after_receive_index example_to_datetime example_log
           example_matches (nth 1 example_matches (mkMatch 0 0 VNone VNone FNaN))).
  - vm_compute. reflexivity.
  - right. left. reflexivity.
Defined.

(** C3: two matches at different places of the engine's output never have
    the same [receive_index] nor the same [send_index], and the
    [receive_index] of one is never the [send_index] of the other: a row
    is an endpoint of at most one match. *)
Theorem endpoints_in_one_match
    (to_datetime : value -> option Z) (df : DataFrame) (ms : list Match)
    (p q : nat) (m1 m2 : Match) :
  snd (calculate_time_differences to_datetime df) = Returned ms ->
  nth_error ms p = Some m1 ->
  nth_error ms q = Some m2 ->
  p <> q ->
  receive_index m1 <> receive_index m2 /\
  send_index m1 <> send_index m2 /\
  receive_index m1 <> send_index m2 /\
  send_index m1 <> receive_index m2.
Proof.
  intros Hret H1 H2 Hpq.
  destruct (engine_returned to_datetime df ms Hret) as (_ & (b & Hp) & _).
  destruct (Nat.lt_total p q) as [Hlt|[Heq|Hgt]]; [|contradiction|].
  - pose proof (paired_before_sorted df ms b Hp p q m1 m2 Hlt H1 H2). lia.
  - pose proof (paired_before_sorted df ms b Hp q p m2 m1 Hgt H2 H1). lia.
Qed.

Lemma endpoints_in_one_match_witness :
  0 <> 3 /\ 2 <> 4 /\ 0 <> 4 /\ 2 <> 3.
Proof.
  apply (endpoints_in_one_match example_to_datetime example_log example_matches
           0 1
           (nth 0 example_matches (mkMatch 0 0 VNone VNone FNaN))
           (nth 1 example_matches (mkMatch 0 0 VNone VNone FNaN))).
  - vm_compute. reflexivity.
  - reflexivity.
  - reflexivity.
  - discriminate.
Defined.

(** ** Scenario B *)

(** C4, as the engine does it: on [Received@t0, Received@t1, Sent@t2]
    with all three times valid the engine yields exactly one match, of the
    row at index 0 with the row at index 2, with the duration [t2 - t0] in
    minutes; the row at index 1 is in no match. *)
Theorem scenario_b_pairs_first_received
    (to_datetime : value -> option Z) (c0 c1 c2 : value) (t0 t1 t2 : Z) :
  to_datetime c0 = Some t0 ->
  to_datetime c1 = Some t1 ->
  to_datetime c2 = Some t2 ->
  snd (calculate_time_differences to_datetime
         (pd_DataFrame [ log_row (VStr RECEIVE) c0;
                         log_row (VStr RECEIVE) c1;
                         log_row (VStr SEND) c2 ])) =
  Returned [ {| receive_index := 0;
                send_index := 2;
                receive_time := c0;
                send_time := c2;
                time_diff_minutes :=
                  FVal (((t2 - t0) # 1000000000) / (60 # 1)) |} ].
Proof.
  intros H0 H1 H2.
  vm_compute. rewrite H0, H1, H2. vm_compute. reflexivity.
Qed.

Lemma scenario_b_pairs_first_received_witness :
  snd (calculate_time_differences example_to_datetime
         (pd_DataFrame [ log_row (VStr RECEIVE) (VStr "2024/01/01 10:00");
                         log_row (VStr RECEIVE) (VStr "2024/01/01 10:02");
                         log_row (VStr SEND) (VStr "2024/01/01 10:05") ])) =
  Returned [ {| receive_index := 0;
                send_index := 2;
                receive_time := VStr "2024/01/01 10:00";
                send_time := VStr "2024/01/01 10:05";
                time_diff_minutes :=
                  FVal (((1704103500000000000 - 1704103200000000000)
                         # 1000000000) / (60 # 1)) |} ].
Proof.
  apply (scenario_b_pairs_first_received example_to_datetime
           (VStr "2024/01/01 10:00") (VStr "2024/01/01 10:02")
           (VStr "2024/01/01 10:05")
           1704103200000000000 1704103320000000000 1704103500000000000);
    reflexivity.
Defined.

(** Scenarios A and C of the spec. *)
Example scenario_a :
  snd (calculate_time_differences example_to_datetime
         (pd_DataFrame [ log_row (VStr RECEIVE) (VStr "2024/01/01 10:00");
                         log_row (VStr SEND) (VStr "2024/01/01 10:05") ])) =
  Returned [ {| receive_index := 0;
                send_index := 1;
                receive_time := VStr "2024/01/01 10:00";
                send_time := VStr "2024/01/01 10:05";
                time_diff_minutes := FVal (300000000000 # 60000000000) |} ]
  /\ (300000000000 # 60000000000 == 5)%Q.
Proof. split; reflexivity. Qed.

Example scenario_c :
  snd (calculate_time_differences example_to_datetime
         (pd_DataFrame [ log_row (VStr SEND) (VStr "2024/01/01 10:00");
                         log_row (VStr RECEIVE) (VStr "2024/01/01 10:05") ])) =
  Returned [].
Proof. reflexivity. Qed.

(** C4, as it is written: the single match of scenario B would be of the
    row at index 1 with the row at index 2.  It is not, on this input. *)
Lemma scenario_b_not_second_received :
  ~ (exists m,
       snd (calculate_time_differences example_to_datetime
              (pd_DataFrame [ log_row (VStr RECEIVE) (VStr "2024/01/01 10:00");
                              log_row (VStr RECEIVE) (VStr "2024/01/01 10:02");
                              log_row (VStr SEND) (VStr "2024/01/01 10:05") ]))
         = Returned [m] /\
       receive_index m = 1 /\ send_index m = 2).
Proof.
  intros (m & Hret & Hr & _).
  vm_compute in Hret. injection Hret as <-. discriminate.
Qed.

(** ** The frame after the call *)

(** C5, as it is written: the frame the caller passed is the same after the
    call.  It is not: the engine has put a [datetime] column on it. *)
Lemma engine_changes_the_frame :
  fst (calculate_time_differences example_to_datetime example_log) <> example_log.
Proof. vm_compute. intros H. discriminate H. Qed.

Lemma setitem_column_same (df : DataFrame) (s : string) (f : dict -> value)
    (i : nat) (r : dict) :
  nth_error (records df) i = Some r ->
  iloc_getitem (setitem_column df (VStr s) (map f (records df))) i (VStr s) =
  Returned (f r).
Proof.
  intros Hr. unfold iloc_getitem, iloc, setitem_column. simpl.
  rewrite assign_cells_map_nth, Hr. simpl.
  unfold getitem. simpl. rewrite py_in_add_label_same.
  unfold cell. now rewrite dict_get_set_same.
Qed.

(** C5, as the engine does it: the call leaves the number of rows, and
    every label and cell other than [datetime], as they were.  On a frame
    that has both required labels it sets the [datetime] column to the
    parsed times, so that the frame has that label afterwards and every
    row shows its parsed time cell under it, and does nothing else to the
    frame; on a frame that lacks one of the two labels it raises the
    missing-columns error and leaves the frame as it was. *)
Theorem engine_only_sets_datetime (to_datetime : value -> option Z) (df : DataFrame) :
  let df' := fst (calculate_time_differences to_datetime df) in
  len df' = len df /\
  (forall k, py_eq (VStr DATETIME) k = false ->
     py_in k (columns df') = py_in k (columns df) /\
     forall i, iloc_getitem df' i k = iloc_getitem df i k) /\
  (py_in (VStr STATUS) (columns df) = true ->
   py_in (VStr TIME) (columns df) = true ->
   df' = setitem_column df (VStr DATETIME)
           (map (fun r => timestamp_cell to_datetime (cell (VStr TIME) r))
                (records df)) /\
   py_in (VStr DATETIME) (columns df') = true /\
   (forall i r, nth_error (records df) i = Some r ->
      iloc_getitem df' i (VStr DATETIME)
        = Returned (timestamp_cell to_datetime (cell (VStr TIME) r))) /\
   exists ms, snd (calculate_time_differences to_datetime df) = Returned ms) /\
  (py_in (VStr STATUS) (columns df) = false \/
   py_in (VStr TIME) (columns df) = false ->
   df' = df /\
   snd (calculate_time_differences to_datetime df) = Raised (ValueError MSG_COLUMNS)).
Proof.
  cbv zeta.
  destruct (py_in (VStr STATUS) (columns df)) eqn:Hs;
    [destruct (py_in (VStr TIME) (columns df)) eqn:Ht|].
  - destruct (engine_spec to_datetime df (S (len df)) Hs Ht) as (s & Hrun & _);
      [lia|].
    unfold calculate_time_differences. rewrite Hrun. cbn [fst snd].
    assert (Hscanned : scanned to_datetime df =
                       setitem_column df (VStr DATETIME)
                         (map (fun r => timestamp_cell to_datetime (cell (VStr TIME) r))
                              (records df)))
      by (unfold scanned; now rewrite map_map).
    split; [apply scanned_len|split; [|split]].
    + intros k Hk. split.
      * unfold scanned, setitem_column. cbn [columns].
        now apply py_in_add_label_other.
      * intros i. now apply scanned_other.
    + intros _ _. split; [exact Hscanned|]. split; [|split].
      * unfold scanned, setitem_column. cbn [columns].
        apply py_in_add_label_same.
      * intros i r Hr. rewrite Hscanned.
        now apply (setitem_column_same df DATETIME
                     (fun r => timestamp_cell to_datetime (cell (VStr TIME) r))).
      * now exists (var_results s).
    + intros [H|H]; discriminate H.
  - unfold calculate_time_differences, calculate_time_differences_fuel.
    rewrite Hs, Ht. cbn [negb orb fst snd].
    split; [reflexivity|split; [|split]].
    + intros k _. split; reflexivity.
    + intros _ H. discriminate H.
    + intros _. split; reflexivity.
  - unfold calculate_time_differences, calculate_time_differences_fuel.
    rewrite Hs. cbn [negb orb fst snd].
    split; [reflexivity|split; [|split]].
    + intros k _. split; reflexivity.
    + intros H. discriminate H.
    + intros _. split; reflexivity.
Qed.

Lemma engine_only_sets_datetime_witness :
  iloc_getitem (fst (calculate_time_differences example_to_datetime example_log))
    3 (VStr TIME)
  = iloc_getitem example_log 3 (VStr TIME) /\
  iloc_getitem (fst (calculate_time_differences example_to_datetime example_log))
    3 (VStr DATETIME)
  = Returned VNaT /\
  iloc_getitem (fst (calculate_time_differences example_to_datetime example_log))
    4 (VStr DATETIME)
  = Returned (VDatetime 1704103740000000000).
Proof.
  destruct (engine_only_sets_datetime example_to_datetime example_log)
    as (_ & Hkeep & Hset & _).
  destruct (Hkeep (VStr TIME) eq_refl) as (_ & Hcells).
  destruct (Hset eq_refl eq_refl) as (_ & _ & Hparsed & _).
  split; [apply Hcells|split].
  - exact (Hparsed 3 (log_row (VStr RECEIVE) (VStr "half past ten")) eq_refl).
  - exact (Hparsed 4 (log_row (VStr SEND) (VStr "2024/01/01 10:09")) eq_refl).
Defined.

Example engine_leaves_frame_without_labels :
  calculate_time_differences example_to_datetime
    (pd_DataFrame [[(VStr TIME, VStr "2024/01/01 10:00")]]) =
  (pd_DataFrame [[(VStr TIME, VStr "2024/01/01 10:00")]],
   Raised (ValueError MSG_COLUMNS)).
Proof. reflexivity. Qed.

(** ** The missing-columns error *)

(** C6: the engine raises its [ValueError] exactly when the frame lacks
    the direction label or the time label.  The check comes before
    anything else, so the frame is then untouched; and on a frame that has
    both labels the engine returns its matches, whatever the rows hold. *)
Theorem missing_columns_error_iff (to_datetime : value -> option Z) (df : DataFrame) :
  (snd (calculate_time_differences to_datetime df) = Raised (ValueError MSG_COLUMNS)
   <-> (py_in (VStr STATUS) (columns df) = false \/
        py_in (VStr TIME) (columns df) = false)) /\
  ((py_in (VStr STATUS) (columns df) = false \/
    py_in (VStr TIME) (columns df) = false) ->
   fst (calculate_time_differences to_datetime df) = df) /\
  (py_in (VStr STATUS) (columns df) = true ->
   py_in (VStr TIME) (columns df) = true ->
   exists ms, snd (calculate_time_differences to_datetime df) = Returned ms).
Proof.
  destruct (py_in (VStr STATUS) (columns df)) eqn:Hs;
    [destruct (py_in (VStr TIME) (columns df)) eqn:Ht|].
  - destruct (engine_spec to_datetime df (S (len df)) Hs Ht) as (s & Hrun & _);
      [lia|].
    unfold calculate_time_differences. rewrite Hrun. cbn [fst snd].
    split; [split|split].
    + discriminate.
    + intros [H|H]; discriminate.
    + intros [H|H]; discriminate.
    + intros _ _. now exists (var_results s).
  - unfold calculate_time_differences, calculate_time_differences_fuel.
    rewrite Hs, Ht. cbn [negb orb fst snd].
    split; [split; auto|split; auto]. discriminate.
  - unfold calculate_time_differences, calculate_time_differences_fuel.
    rewrite Hs. cbn [negb orb fst snd].
    split; [split; auto|split; auto]. discriminate.
Qed.

Lemma missing_columns_error_iff_witness :
  exists ms,
    snd (calculate_time_differences example_to_datetime example_log) = Returned ms.
Proof.
  destruct (missing_columns_error_iff example_to_datetime example_log)
    as (_ & _ & Hreturns).
  apply Hreturns; reflexivity.
Defined.

Example frame_without_time_label :
  calculate_time_differences example_to_datetime
    (pd_DataFrame [[(VStr STATUS, VStr RECEIVE)]; [(VStr STATUS, VStr SEND)]]) =
  (pd_DataFrame [[(VStr STATUS, VStr RECEIVE)]; [(VStr STATUS, VStr SEND)]],
   Raised (ValueError MSG_COLUMNS)).
Proof. reflexivity. Qed.

(** ** Termination *)

(** C9: on a frame with both labels and with more fuel than rows, every
    pass of the outer loop made with the cursor inside the frame returns
    and leaves the cursor strictly greater, either greater by one or on a
    later sent row; the scan returns, its passes are made only while the
    cursor is inside the frame, and it stops with the cursor equal to the
    number of rows. *)
Theorem scan_terminates (to_datetime : value -> option Z) (df : DataFrame) (fuel : nat) :
  py_in (VStr STATUS) (columns df) = true ->
  py_in (VStr TIME) (columns df) = true ->
  len df < fuel ->
  let df' := fst (calculate_time_differences_fuel to_datetime fuel df) in
  (forall s, var_i s < len df' ->
     exists s', outer_body fuel df' s = Returned (Continue s') /\
                var_i s < var_i s' <= len df' /\
                (var_i s' = var_i s + 1 \/ is_sent df' (var_i s'))) /\
  (exists s,
     scan fuel df' = Returned s /\
     scan_reaches to_datetime df' {| var_i := 0; var_j := 0; var_results := [] |} s /\
     var_i s = len df' /\
     snd (calculate_time_differences_fuel to_datetime fuel df)
       = Returned (var_results s)) /\
  calculate_time_differences_fuel to_datetime fuel df
    = calculate_time_differences to_datetime df.
Proof.
  intros Hs Ht Hfuel. cbv zeta.
  destruct (engine_spec to_datetime df fuel Hs Ht Hfuel)
    as (s & Hrun & Hscan & Hreach & Hend).
  rewrite Hrun. cbn [fst snd].
  pose proof (scanned_ok to_datetime df Hs Ht) as Hok.
  split; [|split].
  - intros s0 Hi.
    destruct (outer_body_spec to_datetime _ fuel s0 Hok Hi) as (s' & Hbody & Hstep).
    { now rewrite scanned_len. }
    exists s'. split; [exact Hbody|].
    split; [now apply (outer_step_advances to_datetime)|].
    destruct Hstep as [? ? ?|? ? ? ?|j ? ? Hsj ? Hj ?]; auto.
    right. now rewrite Hj.
  - exists s. rewrite scanned_len. auto.
  - rewrite <- Hrun. now apply engine_fuel_irrelevant.
Qed.

Lemma scan_terminates_witness :
  exists s,
    scan 6 (fst (calculate_time_differences_fuel example_to_datetime 6 example_log))
      = Returned s /\
    var_i s = 5.
Proof.
  destruct (scan_terminates example_to_datetime example_log 6
              eq_refl eq_refl (le_n 6))
    as (_ & (s & Hscan & _ & Hend & _) & _).
  exists s. split; [exact Hscan|exact Hend].
Defined.

(** ** Invalid timestamps *)

Lemma is_sent_in_frame (df : DataFrame) (j : nat) : is_sent df j -> j < len df.
Proof.
  unfold is_sent, iloc_getitem, iloc, len. intros H.
  apply nth_error_Some. destruct (nth_error (records df) j); [discriminate|].
  discriminate H.
Qed.

Lemma same_directions_scanned (to_datetime to_datetime' : value -> option Z)
    (df df' : DataFrame) :
  same_directions df df' ->
  same_directions (scanned to_datetime df) (scanned to_datetime' df').
Proof.
  intros (Hlen & Hdir). split.
  - now rewrite !scanned_len.
  - intros i. rewrite !scanned_other by reflexivity. apply Hdir.
Qed.

(** ** The spreadsheet reader *)

Lemma find_header_row_None (rows : list (list value)) (i : nat) :
  find_header_row rows i = None <-> find has_either rows = None.
Proof.
  revert i. induction rows as [|row rows IH]; intros i; simpl; [tauto|].
  fold (has_either row). destruct (has_either row); [split; discriminate|].
  apply IH.
Qed.

Lemma find_header_row_Some (rows : list (list value)) (i h : nat) :
  find_header_row rows i = Some h ->
  i <= h /\
  exists row, find has_either rows = Some row /\
              nth_error rows (h - i) = Some row.
Proof.
  revert i. induction rows as [|row rows IH]; intros i; simpl; [discriminate|].
  fold (has_either row). destruct (has_either row).
  - intros H. injection H as <-. split; [lia|].
    exists row. rewrite Nat.sub_diag. auto.
  - intros H. destruct (IH _ H) as (Hle & r & Hf & Hn).
    split; [lia|]. exists r. split; [exact Hf|].
    replace (h - i) with (S (h - S i)) by lia. exact Hn.
Qed.

Lemma status_is_not_time (v : value) :
  py_eq v (VStr STATUS) = true -> py_eq v (VStr TIME) = false.
Proof. intros H. apply py_eq_str_inv in H. now subst v. Qed.

(** The fold of [column_indexes], from any position and any pair found so
    far. *)
Lemma column_indexes_fold (l : list value) (n : nat) (acc : option nat * option nat) :
  let found :=
    fold_left
      (fun (acc : option nat * option nat) (ih : nat * value) =>
         if py_eq (snd ih) (VStr STATUS) then (Some (fst ih), snd acc)
         else if py_eq (snd ih) (VStr TIME) then (fst acc, Some (fst ih))
         else acc)
      (enumerate n l) acc in
  (fst found = None <-> fst acc = None /\ py_in (VStr STATUS) l = false) /\
  (snd found = None <-> snd acc = None /\ py_in (VStr TIME) l = false) /\
  (forall bound, n + List.length l <= bound ->
     (forall x, fst acc = Some x -> x < bound) ->
     (forall x, snd acc = Some x -> x < bound) ->
     (forall x, fst found = Some x -> x < bound) /\
     (forall x, snd found = Some x -> x < bound)).
Proof.
  revert n acc. induction l as [|v l IH]; intros n acc; cbn zeta.
  - simpl. repeat split; try tauto; intros; auto.
  - cbn [enumerate fold_left fst snd]. unfold py_in. cbn [existsb].
    fold (py_in (VStr STATUS) l). fold (py_in (VStr TIME) l).
    destruct (py_eq v (VStr STATUS)) eqn:Es.
    + rewrite (status_is_not_time v Es).
      destruct (IH (S n) (Some n, snd acc)) as (H1 & H2 & H3).
      cbn zeta in H1, H2, H3. cbn [fst snd] in H1, H2, H3.
      split; [|split].
      * rewrite H1. split; [intros [? _]; discriminate|intros [_ ?]; discriminate].
      * rewrite H2. cbn [orb]. tauto.
      * intros bound Hb Ha Hc. cbn [List.length] in Hb.
        apply H3; [lia| |exact Hc].
        intros x Hx. injection Hx as <-. lia.
    + destruct (py_eq v (VStr TIME)) eqn:Et.
      * destruct (IH (S n) (fst acc, Some n)) as (H1 & H2 & H3).
        cbn zeta in H1, H2, H3. cbn [fst snd] in H1, H2, H3.
        split; [|split].
        -- rewrite H1. cbn [orb]. tauto.
        -- rewrite H2. split; [intros [? _]; discriminate|intros [_ ?]; discriminate].
        -- intros bound Hb Ha Hc. cbn [List.length] in Hb.
           apply H3; [lia|exact Ha|].
           intros x Hx. injection Hx as <-. lia.
      * destruct (IH (S n) acc) as (H1 & H2 & H3).
        cbn zeta in H1, H2, H3.
        split; [|split].
        -- rewrite H1. cbn [orb]. tauto.
        -- rewrite H2. cbn [orb]. tauto.
        -- intros bound Hb Ha Hc. cbn [List.length] in Hb.
           apply H3; [lia|exact Ha|exact Hc].
Qed.

Lemma column_indexes_both (hs : list value) :
  has_both hs = true ->
  exists s t, column_indexes hs = (Some s, Some t) /\
              s < List.length hs /\ t < List.length hs.
Proof.
  unfold has_both. intros H. apply andb_true_iff in H. destruct H as (Hs & Ht).
  destruct (column_indexes_fold hs 0 (None, None)) as (H1 & H2 & H3).
  cbn zeta in H1, H2, H3. fold (column_indexes hs) in H1, H2, H3.
  cbn [fst snd] in H1, H2, H3.
  destruct (column_indexes hs) as [[s|] [t|]]; cbn [fst snd] in *.
  - exists s, t. split; [reflexivity|].
    destruct (H3 (List.length hs)) as (Ha & Hb);
      [lia|discriminate|discriminate|]. auto.
  - destruct H2 as (H2 & _). destruct (H2 eq_refl). congruence.
  - destruct H1 as (H1 & _). destruct (H1 eq_refl). congruence.
  - destruct H1 as (H1 & _). destruct (H1 eq_refl). congruence.
Qed.

Lemma column_indexes_not_both (hs : list value) :
  has_both hs = false ->
  forall s t, column_indexes hs <> (Some s, Some t).
Proof.
  unfold has_both. intros H s t Heq.
  destruct (column_indexes_fold hs 0 (None, None)) as (H1 & H2 & _).
  cbn zeta in H1, H2. fold (column_indexes hs) in H1, H2.
  rewrite Heq in H1, H2. cbn [fst snd] in H1, H2.
  apply andb_false_iff in H. destruct H as [H|H].
  - destruct H1 as (_ & H1). discriminate H1. auto.
  - destruct H2 as (_ & H2). discriminate H2. auto.
Qed.

Lemma collect_data_all_skipped (hs : list value) (s t : nat)
    (rows : list (list value)) (data : list dict) :
  Forall (fun row => skip_row s t row = Returned true) rows ->
  collect_data hs s t rows data = Returned data.
Proof.
  induction 1 as [|row rows Hrow Hrows IH]; simpl; auto.
  now rewrite Hrow.
Qed.

Lemma skip_row_only_IndexError (s t : nat) (row : list value) (e : exn) :
  skip_row s t row = Raised e -> exists msg, e = IndexError msg.
Proof.
  unfold skip_row, tuple_getitem.
  destruct (truthy row); cbn [negb]; [|discriminate].
  destruct (nth_error row s) as [a|]; cbn [bind].
  - destruct (is_None a); [discriminate|].
    destruct (nth_error row t) as [b|]; cbn [bind]; [discriminate|].
    intros H. injection H as <-. eauto.
  - intros H. injection H as <-. eauto.
Qed.

Lemma collect_data_never_OutOfFuel (hs : list value) (s t : nat)
    (rows : list (list value)) (data : list dict) :
  (forall e, collect_data hs s t rows data = Raised e -> exists msg, e = IndexError msg) /\
  collect_data hs s t rows data <> OutOfFuel.
Proof.
  revert data. induction rows as [|row rows IH]; intros data; simpl.
  - split; [discriminate|discriminate].
  - destruct (skip_row s t row) as [[|]| |] eqn:E; cbn [bind].
    + apply IH.
    + apply IH.
    + split; [|discriminate]. intros e' H. injection H as <-.
      now apply skip_row_only_IndexError with s t row.
    + exfalso. unfold skip_row, tuple_getitem in E.
      destruct (truthy row); cbn [negb] in E; [|discriminate].
      destruct (nth_error row s) as [a|]; cbn [bind] in E; [|discriminate].
      destruct (is_None a); [discriminate|].
      destruct (nth_error row t); discriminate.
Qed.

Lemma collect_data_rectangular (hs : list value) (s t width : nat)
    (rows : list (list value)) (data : list dict) :
  rectangular width rows -> s < width -> t < width ->
  exists data', collect_data hs s t rows data = Returned data'.
Proof.
  intros Hrect Hs Ht. revert data.
  induction Hrect as [|row rows Hrow Hrows IH]; intros data; simpl; eauto.
  assert (Hskip : exists b, skip_row s t row = Returned b).
  { unfold skip_row, tuple_getitem.
    destruct (truthy row); cbn [negb]; eauto.
    destruct (nth_error row s) as [a|] eqn:Ea;
      [|apply nth_error_None in Ea; lia].
    cbn [bind]. destruct (is_None a); eauto.
    destruct (nth_error row t) as [b|] eqn:Eb;
      [|apply nth_error_None in Eb; lia].
    cbn [bind]. eauto. }
  destruct Hskip as [b ->]. cbn [bind]. destruct b; apply IH.
Qed.

Lemma rectangular_skipn (width n : nat) (sheet : worksheet) :
  rectangular width sheet -> rectangular width (skipn n sheet).
Proof.
  unfold rectangular. intros H.
  rewrite <- (firstn_skipn n sheet) in H. apply Forall_app in H. tauto.
Qed.

(** ** Header detection *)

(** C8, as it is written: a sheet in which both labels appear passes
    header detection.  This sheet has both, in its second row, and fails
    with the structural error, its first row holding one of them. *)
Lemma labels_present_yet_structural_error :
  existsb (py_in (VStr STATUS)) example_titled_sheet = true /\
  existsb (py_in (VStr TIME)) example_titled_sheet = true /\
  process_excel_file example_to_datetime example_titled_sheet
    = Raised (ValueError MSG_HEADER_COLUMNS).
Proof. repeat split; reflexivity. Qed.

(** C8, as the reader does it: the header row is the first row that holds
    either label, and the operation fails with a structural error exactly
    when that row does not hold both labels, or no row holds either.  When
    that row holds both, it is the header row and, on a sheet whose rows
    all have the same width, the rows below it are collected and the
    outcome is that of the pairing on them. *)
Theorem header_is_first_labelled_row (to_datetime : value -> option Z)
    (sheet : worksheet) :
  ((process_excel_file to_datetime sheet = Raised (ValueError MSG_NO_HEADER) \/
    process_excel_file to_datetime sheet = Raised (ValueError MSG_HEADER_COLUMNS))
   <-> (forall row, find has_either sheet = Some row -> has_both row = false)) /\
  (forall row width,
     find has_either sheet = Some row -> has_both row = true ->
     rectangular width sheet ->
     exists h s t data,
       find_header_row sheet 1 = Some h /\
       nth_error sheet (h - 1) = Some row /\
       column_indexes row = (Some s, Some t) /\
       collect_data row s t (skipn h sheet) [] = Returned data /\
       process_excel_file to_datetime sheet = pairing_outcome to_datetime h row data).
Proof.
  unfold process_excel_file.
  destruct (find_header_row sheet 1) as [h|] eqn:Eh.
  - destruct (find_header_row_Some _ _ _ Eh) as (Hle & row & Hfind & Hnth).
    rewrite (nth_error_nth _ _ [] Hnth).
    destruct (has_both row) eqn:Hboth.
    + destruct (column_indexes_both row Hboth) as (s & t & Hcols & Hs & Ht).
      rewrite Hcols. split.
      * split.
        -- intros Hfail. exfalso.
           destruct (collect_data_never_OutOfFuel row s t (skipn h sheet) [])
             as (Hraise & _).
           destruct (collect_data row s t (skipn h sheet) []) as [data|e|];
             cbn [bind] in Hfail.
           ++ destruct (snd (calculate_time_differences to_datetime
                               (pd_DataFrame data)));
                destruct Hfail as [H|H]; try discriminate H;
                injection H as H; unfold MSG_WRAP, MSG_NO_HEADER,
                  MSG_HEADER_COLUMNS in H; simpl in H; discriminate H.
           ++ destruct (Hraise e eq_refl) as (msg & ->).
              destruct Hfail as [H|H]; discriminate H.
           ++ destruct Hfail as [H|H]; discriminate H.
        -- intros Hall. rewrite (Hall row Hfind) in Hboth. discriminate.
      * intros row' width Hfind' _ Hrect.
        rewrite Hfind in Hfind'. injection Hfind' as <-.
        assert (Hw : List.length row = width).
        { unfold rectangular in Hrect. rewrite Forall_forall in Hrect.
          apply Hrect. eapply nth_error_In; eauto. }
        destruct (collect_data_rectangular row s t width (skipn h sheet) [])
          as (data & Hdata); [now apply rectangular_skipn|lia|lia|].
        exists h, s, t, data. rewrite Hdata. cbn [bind].
        repeat split; auto.
    + split.
      * split.
        -- intros _ row' Hfind'. rewrite Hfind in Hfind'. now injection Hfind' as <-.
        -- intros _. right.
           pose proof (column_indexes_not_both row Hboth) as Hnot.
           destruct (column_indexes row) as [[s|] [t|]]; auto.
           exfalso. now apply (Hnot s t).
      * intros row' width Hfind' Hboth'.
        rewrite Hfind in Hfind'. injection Hfind' as <-. congruence.
  - apply find_header_row_None in Eh. split.
    + split; auto. intros _ row Hfind. congruence.
    + intros row width Hfind. congruence.
Qed.

Lemma header_is_first_labelled_row_witness :
  exists h s t data,
    find_header_row example_sheet 1 = Some h /\
    nth_error example_sheet (h - 1) = Some [VStr TIME; VStr STATUS] /\
    column_indexes [VStr TIME; VStr STATUS] = (Some s, Some t) /\
    collect_data [VStr TIME; VStr STATUS] s t (skipn h example_sheet) []
      = Returned data /\
    process_excel_file example_to_datetime example_sheet
      = pairing_outcome example_to_datetime h [VStr TIME; VStr STATUS] data.
Proof.
  destruct (header_is_first_labelled_row example_to_datetime example_sheet)
    as (_ & Hpaired).
  apply (Hpaired [VStr TIME; VStr STATUS] 2).
  - reflexivity.
  - reflexivity.
  - repeat constructor.
Defined.

Example example_sheet_is_paired :
  process_excel_file example_to_datetime example_sheet =
  Returned {| header_row := 2;
              headers := [VStr TIME; VStr STATUS];
              results :=
                [ {| receive_index := 0; send_index := 1;
                     receive_time := VStr "2024/01/01 10:00";
                     send_time := VStr "2024/01/01 10:07";
                     time_diff_minutes :=
                       FVal ((420000000000 # 1000000000) / (60 # 1)) |} ] |}.
Proof. vm_compute. reflexivity. Qed.

(** ** A sheet without data rows *)

(** C10: when every row below the header row is passed over, the frame of
    the collected rows has no labels, the engine raises its missing-columns
    [ValueError] on it instead of returning an empty list, and the whole
    operation fails with that error wrapped. *)
Theorem no_data_rows_fail (to_datetime : value -> option Z) (sheet : worksheet)
    (h s t : nat) :
  find_header_row sheet 1 = Some h ->
  column_indexes (nth (h - 1) sheet []) = (Some s, Some t) ->
  Forall (fun row => skip_row s t row = Returned true) (skipn h sheet) ->
  columns (pd_DataFrame []) = [] /\
  snd (calculate_time_differences to_datetime (pd_DataFrame []))
    = Raised (ValueError MSG_COLUMNS) /\
  process_excel_file to_datetime sheet
    = Raised (ValueError (MSG_WRAP ++ MSG_COLUMNS)).
Proof.
  intros Hh Hcols Hskip. split; [reflexivity|split; [reflexivity|]].
  unfold process_excel_file. rewrite Hh, Hcols.
  rewrite (collect_data_all_skipped _ _ _ _ _ Hskip). reflexivity.
Qed.

Lemma no_data_rows_fail_witness :
  columns (pd_DataFrame []) = [] /\
  snd (calculate_time_differences example_to_datetime (pd_DataFrame []))
    = Raised (ValueError MSG_COLUMNS) /\
  process_excel_file example_to_datetime example_empty_sheet
    = Raised (ValueError (MSG_WRAP ++ MSG_COLUMNS)).
Proof.
  apply (no_data_rows_fail example_to_datetime example_empty_sheet 1 0 1).
  - reflexivity.
  - reflexivity.
  - repeat constructor.
Defined.

(** * Further properties of the engine *)

Section ScanComplete.

Variable to_datetime : value -> option Z.
Variable df : DataFrame.

Lemma outer_step_complete (s s' : locals) :
  outer_step to_datetime df s s' ->
  scan_complete df s -> scan_complete df s'.
Proof.
  intros Hstep (HA & HB & HC).
  destruct Hstep as [Hn Hi Hr|Hrecv Hnone Hi Hr|j0 Hrecv Hj Hsj Hnone Hi Hr].
  - (* the row is not a received one *)
    unfold scan_complete. rewrite Hr, Hi. split; [|split].
    + intros m Hin. destruct (HA m Hin). split; [auto|lia].
    + intros i j Hv Hle.
      destruct (Nat.eq_dec j (var_i s + 1)) as [->|]; [|apply HB; auto; lia].
      exfalso. destruct Hv as (Hri & Hsjv & Hij & Hbetween & _).
      destruct (Nat.eq_dec i (var_i s)) as [->|]; [contradiction|].
      destruct (HC i) as [(s0 & Hs0 & Hsent)|Hnever]; [lia|exact Hri| |].
      * apply (Hbetween s0); [lia|exact Hsent].
      * apply (Hnever (var_i s + 1)); [lia|exact Hsjv].
    + intros k Hk Hrk.
      destruct (Nat.eq_dec k (var_i s)) as [->|]; [contradiction|].
      destruct (HC k) as [(s0 & Hs0 & Hsent)|Hnever]; [lia|exact Hrk| |].
      * left. exists s0. split; [lia|exact Hsent].
      * right. exact Hnever.
  - (* a received row with no sent row after it *)
    assert (Hafter : forall s0, var_i s < s0 -> ~ is_sent df s0).
    { intros s0 Hs0 Hsent. apply (Hnone s0); [|exact Hsent].
      split; [lia|]. now apply is_sent_in_frame. }
    unfold scan_complete. rewrite Hr, Hi. split; [|split].
    + intros m Hin. destruct (HA m Hin). split; [auto|lia].
    + intros i j Hv Hle.
      destruct (Nat.eq_dec j (var_i s + 1)) as [->|]; [|apply HB; auto; lia].
      exfalso. destruct Hv as (Hri & Hsjv & Hij & Hbetween & _).
      destruct (Nat.eq_dec i (var_i s)) as [->|].
      * apply (Hafter (var_i s + 1)); [lia|exact Hsjv].
      * destruct (HC i) as [(s0 & Hs0 & Hsent)|Hnever]; [lia|exact Hri| |].
        -- apply (Hbetween s0); [lia|exact Hsent].
        -- apply (Hnever (var_i s + 1)); [lia|exact Hsjv].
    + intros k Hk Hrk.
      destruct (Nat.eq_dec k (var_i s)) as [->|]; [right; exact Hafter|].
      destruct (HC k) as [(s0 & Hs0 & Hsent)|Hnever]; [lia|exact Hrk| |].
      * left. exists s0. split; [lia|exact Hsent].
      * right. exact Hnever.
  - (* a received row and the first sent row after it *)
    assert (Hvalid : valid_pair df (var_i s) j0).
    { split; [exact Hrecv|]. split; [exact Hsj|]. split; [lia|].
      split; [exact Hnone|].
      intros k Hk Hrk.
      destruct (HC k Hk Hrk) as [(s0 & Hs0 & Hsent)|Hnever].
      - exists s0. split; [|exact Hsent].
        destruct (Nat.eq_dec s0 (var_i s)) as [->|]; [|lia].
        exfalso. now apply (received_not_sent df (var_i s)).
      - exfalso. apply (Hnever j0); [lia|exact Hsj]. }
    unfold scan_complete. rewrite Hr, Hi. split; [|split].
    + intros m Hin. apply in_app_or in Hin. destruct Hin as [Hin|[<-|[]]].
      * destruct (HA m Hin). split; [auto|lia].
      * split; [exact Hvalid|]. cbn. lia.
    + intros i j Hv Hle.
      destruct (Nat.le_gt_cases j (var_i s)) as [Hlow|Hhigh].
      * destruct (HB i j Hv Hlow) as (m & Hin & He).
        exists m. split; [apply in_or_app; left; exact Hin|exact He].
      * exists (pairing to_datetime df (var_i s) j0).
        split; [apply in_or_app; right; left; reflexivity|].
        unfold endpoints. cbn [pairing receive_index send_index].
        pose proof Hv as (Hri & Hsjv & Hij & Hbetween & Hbefore).
        assert (j = j0).
        { destruct (Nat.eq_dec j j0); [assumption|].
          exfalso. apply (Hnone j); [lia|exact Hsjv]. }
        subst j.
        assert (i = var_i s).
        { destruct (Nat.lt_total i (var_i s)) as [Hlt|[Heq|Hgt]]; [|assumption|].
          - exfalso. destruct Hvalid as (_ & _ & _ & _ & Hb).
            destruct (Hb i Hlt Hri) as (s0 & Hs0 & Hsent).
            apply (Hbetween s0); [lia|exact Hsent].
          - exfalso. destruct (Hbefore (var_i s) Hgt Hrecv) as (s0 & Hs0 & Hsent).
            apply (Hnone s0); [lia|exact Hsent]. }
        now subst i.
    + intros k Hk Hrk.
      destruct (Nat.lt_ge_cases k (var_i s)) as [Hlow|Hhigh].
      * destruct (HC k Hlow Hrk) as [(s0 & Hs0 & Hsent)|Hnever].
        -- left. exists s0. split; [lia|exact Hsent].
        -- right. exact Hnever.
      * left. exists j0. split; [lia|exact Hsj].
Qed.

Lemma scan_reaches_complete (s s' : locals) :
  scan_reaches to_datetime df s s' ->
  scan_complete df s -> scan_complete df s'.
Proof.
  induction 1 as [s Hend|s mid s' Hi Hstep Hreach IH]; auto.
  intros Hc. apply IH. now apply outer_step_complete with s.
Qed.

End ScanComplete.

Lemma valid_pair_same_directions (df df' : DataFrame) (i j : nat) :
  same_directions df df' -> valid_pair df i j -> valid_pair df' i j.
Proof.
  intros Hsame (H1 & H2 & H3 & H4 & H5).
  split; [now apply (same_directions_received df df' Hsame)|].
  split; [now apply (same_directions_sent df df' Hsame)|].
  split; [exact H3|]. split.
  - intros k Hk Hs. apply (H4 k Hk). now apply (same_directions_sent df df' Hsame).
  - intros k Hk Hr.
    destruct (H5 k Hk) as (s0 & Hs0 & Hsent);
      [now apply (same_directions_received df df' Hsame)|].
    exists s0. split; [exact Hs0|now apply (same_directions_sent df df' Hsame)].
Qed.

Lemma scanned_same_directions (to_datetime : value -> option Z) (df : DataFrame) :
  same_directions (scanned to_datetime df) df.
Proof.
  split; [apply scanned_len|].
  intros i. now apply scanned_other.
Qed.

Lemma same_directions_sym (df df' : DataFrame) :
  same_directions df df' -> same_directions df' df.
Proof. intros (H1 & H2). split; [now symmetry|]. intros i. now symmetry. Qed.

(** ** Invalid timestamps are no obstacle *)

(** The matches of a returned list are the valid pairs of the frame, all
    of them. *)
Lemma returned_valid_pairs (to_datetime : value -> option Z) (df : DataFrame)
    (ms : list Match) :
  snd (calculate_time_differences to_datetime df) = Returned ms ->
  (forall m, In m ms -> valid_pair df (receive_index m) (send_index m)) /\
  (forall i j, valid_pair df i j ->
     exists m, In m ms /\ receive_index m = i /\ send_index m = j).
Proof.
  intros Hret.
  destruct (engine_returned to_datetime df ms Hret) as ((Hs & Ht) & _ & _).
  destruct (engine_spec to_datetime df (S (len df)) Hs Ht)
    as (s & Hrun & _ & Hreach & Hend); [lia|].
  unfold calculate_time_differences in Hret. rewrite Hrun in Hret.
  cbn [snd] in Hret. injection Hret as <-.
  destruct (scan_reaches_complete to_datetime _ _ _ Hreach) as (HA & HB & _).
  { split; [|split].
    - intros m [].
    - intros i0 j0 (_ & _ & Hlt & _) Hle. cbn [var_i] in Hle. lia.
    - intros k Hk. cbn [var_i] in Hk. lia. }
  pose proof (scanned_same_directions to_datetime df) as Hsame.
  split.
  - intros m Hin.
    apply (valid_pair_same_directions _ _ _ _ Hsame). now apply HA.
  - intros i j Hv.
    apply (valid_pair_same_directions _ _ _ _ (same_directions_sym _ _ Hsame)) in Hv.
    destruct (HB i j Hv) as (m & Hin & He).
    + destruct Hv as (_ & Hsent & _). apply is_sent_in_frame in Hsent.
      rewrite scanned_len in Hsent. lia.
    + exists m. unfold endpoints in He. injection He as Hi Hj. auto.
Qed.

(** C7: on a frame with both labels the engine returns its matches
    whatever the time cells hold, and the list is the full one: the
    directions alone decide which rows are matched, so a received row and
    the first sent row after it (the received row being the first since
    the sent row before it) are matched also when a time cell of theirs is
    null or does not parse, and no other rows are.  Each match carries the
    time cells of its two rows, and its duration is NaN exactly when one of
    the two does not parse.  Any frame with the same directions, under any
    parser, gives matches with the same endpoints. *)
Theorem invalid_timestamp_gives_nan (to_datetime : value -> option Z) (df : DataFrame) :
  py_in (VStr STATUS) (columns df) = true ->
  py_in (VStr TIME) (columns df) = true ->
  exists ms,
    snd (calculate_time_differences to_datetime df) = Returned ms /\
    (forall i j,
       valid_pair df i j <->
       exists m, In m ms /\ receive_index m = i /\ send_index m = j) /\
    (forall m, In m ms ->
       iloc_getitem df (receive_index m) (VStr TIME) = Returned (receive_time m) /\
       iloc_getitem df (send_index m) (VStr TIME) = Returned (send_time m) /\
       (time_diff_minutes m = FNaN <->
        to_datetime (receive_time m) = None \/ to_datetime (send_time m) = None)) /\
    (forall to_datetime' df',
       same_directions df df' ->
       py_in (VStr STATUS) (columns df') = true ->
       py_in (VStr TIME) (columns df') = true ->
       exists ms',
         snd (calculate_time_differences to_datetime' df') = Returned ms' /\
         map endpoints ms' = map endpoints ms).
Proof.
  intros Hs Ht.
  destruct (engine_spec to_datetime df (S (len df)) Hs Ht)
    as (s & Hrun & _ & Hreach & _); [lia|].
  assert (Hret : snd (calculate_time_differences to_datetime df)
                 = Returned (var_results s)).
  { unfold calculate_time_differences. now rewrite Hrun. }
  exists (var_results s). split; [exact Hret|split; [|split]].
  - destruct (returned_valid_pairs to_datetime df _ Hret) as (Hsound & Hcomplete).
    intros i j. split.
    + apply Hcomplete.
    + intros (m & Hin & <- & <-). now apply Hsound.
  - intros m Hin.
    destruct (engine_returned to_datetime df _ Hret) as (_ & (b & Hp) & Hall).
    rewrite Forall_forall in Hall. pose proof (Hall m Hin) as Hm.
    apply in_rev in Hin.
    destruct (paired_before_each df _ _ Hp m Hin) as (_ & Hsent & _).
    destruct (paired_before_bounds df _ _ Hp m Hin) as (Hlt & _).
    apply is_sent_in_frame in Hsent.
    rewrite !iloc_getitem_cell_at by (auto; lia).
    rewrite Hm at 2 4 5 6 7. unfold pairing. cbn.
    split; [reflexivity|split; [reflexivity|]].
    unfold minutes_between.
    destruct (to_datetime (cell_at df (send_index m) (VStr TIME))),
             (to_datetime (cell_at df (receive_index m) (VStr TIME)));
      split; intros H; auto; try discriminate; destruct H; discriminate.
  - intros to_datetime' df' Hsame Hs' Ht'.
    destruct (engine_spec to_datetime' df' (S (len df')) Hs' Ht')
      as (s' & Hrun' & _ & Hreach' & _); [lia|].
    exists (var_results s'). split.
    + unfold calculate_time_differences. now rewrite Hrun'.
    + symmetry.
      apply (scan_reaches_same_endpoints to_datetime to_datetime' _ _
               (same_directions_scanned _ _ _ _ Hsame) _ _ Hreach _ _ Hreach');
        reflexivity.
Qed.

(** In [example_log] the received row 3 has a time that does not parse;
    it is matched with the sent row 4, and the duration is NaN. *)
Lemma invalid_timestamp_gives_nan_witness :
  exists ms,
    snd (calculate_time_differences example_to_datetime example_log) = Returned ms /\
    exists m,
      In m ms /\ receive_index m = 3 /\ send_index m = 4 /\
      example_to_datetime (receive_time m) = None /\
      time_diff_minutes m = FNaN.
Proof.
  destruct (invalid_timestamp_gives_nan example_to_datetime example_log
              eq_refl eq_refl) as (ms & Hret & Hpairs & Heach & _).
  exists ms. split; [exact Hret|].
  assert (Hvalid : valid_pair example_log 3 4).
  { split; [reflexivity|]. split; [reflexivity|]. split; [lia|]. split.
    - intros k Hk. lia.
    - intros k Hk Hrk.
      destruct k as [|[|[|k]]]; [| | |lia].
      + exists 2. split; [lia|reflexivity].
      + exists 2. split; [lia|reflexivity].
      + vm_compute in Hrk. discriminate Hrk. }
  destruct (proj1 (Hpairs 3 4) Hvalid) as (m & Hin & Hr & Hs).
  exists m. split; [exact Hin|]. split; [exact Hr|]. split; [exact Hs|].
  destruct (Heach m Hin) as (Hrt & _ & Hnan).
  rewrite Hr in Hrt.
  change (iloc_getitem example_log 3 (VStr TIME))
    with (@Returned value (VStr "half past ten")) in Hrt.
  injection Hrt as Hrt.
  assert (Hnone : example_to_datetime (receive_time m) = None)
    by (rewrite <- Hrt; reflexivity).
  split; [exact Hnone|]. apply Hnan. left. exact Hnone.
Defined.

Example unparseable_time_is_matched :
  snd (calculate_time_differences example_to_datetime example_log)
    = Returned example_matches.
Proof. vm_compute. reflexivity. Qed.

(** X1: every match lies inside the frame, its sent row after its
    received row and before the end of the frame; and the matches come
    out in the order of their rows without overlapping: a match earlier
    in the output ends before a later one begins. *)
Theorem matches_in_row_order
    (to_datetime : value -> option Z) (df : DataFrame) (ms : list Match) :
  snd (calculate_time_differences to_datetime df) = Returned ms ->
  (forall m, In m ms ->
     receive_index m < send_index m /\ send_index m < len df) /\
  (forall p q m1 m2,
     p < q -> nth_error ms p = Some m1 -> nth_error ms q = Some m2 ->
     send_index m1 < receive_index m2).
Proof.
  intros Hret.
  destruct (engine_returned to_datetime df ms Hret) as (_ & (b & Hp) & _).
  split.
  - intros m Hin. apply in_rev in Hin.
    destruct (paired_before_each df _ _ Hp m Hin) as (_ & Hsent & _).
    destruct (paired_before_bounds df _ _ Hp m Hin) as (Hlt & _).
    split; [exact Hlt|]. now apply is_sent_in_frame.
  - intros p q m1 m2 Hpq H1 H2.
    destruct (paired_before_sorted df ms b Hp p q m1 m2 Hpq H1 H2) as (_ & Hlt & _).
    exact Hlt.
Qed.

Lemma matches_in_row_order_witness :
  (0 < 2 /\ 2 < 5) /\ (3 < 4 /\ 4 < 5) /\ 2 < 3.
Proof.
  assert (Hret : snd (calculate_time_differences example_to_datetime example_log)
                 = Returned example_matches) by (vm_compute; reflexivity).
  destruct (matches_in_row_order example_to_datetime example_log example_matches Hret)
    as (Hinside & Hordered).
  split; [|split].
  - apply (Hinside (nth 0 example_matches (mkMatch 0 0 VNone VNone FNaN))).
    left. reflexivity.
  - apply (Hinside (nth 1 example_matches (mkMatch 0 0 VNone VNone FNaN))).
    right. left. reflexivity.
  - apply (Hordered 0 1
             (nth 0 example_matches (mkMatch 0 0 VNone VNone FNaN))
             (nth 1 example_matches (mkMatch 0 0 VNone VNone FNaN)));
      [apply le_n|reflexivity|reflexivity].
Defined.

(** X2: the engine pairs a row [i] with a row [j] exactly when [i] is a
    received row, [j] is the first sent row after it, and every received
    row before [i] has a sent row between itself and [i]. *)
Theorem paired_iff_valid_pair
    (to_datetime : value -> option Z) (df : DataFrame) (ms : list Match) (i j : nat) :
  snd (calculate_time_differences to_datetime df) = Returned ms ->
  ((exists m, In m ms /\ receive_index m = i /\ send_index m = j)
   <-> valid_pair df i j).
Proof.
  intros Hret.
  destruct (engine_returned to_datetime df ms Hret) as ((Hs & Ht) & _ & _).
  destruct (engine_spec to_datetime df (S (len df)) Hs Ht)
    as (s & Hrun & _ & Hreach & Hend); [lia|].
  unfold calculate_time_differences in Hret. rewrite Hrun in Hret.
  cbn [snd] in Hret. injection Hret as <-.
  destruct (scan_reaches_complete to_datetime _ _ _ Hreach) as (HA & HB & _).
  { split; [|split].
    - intros m [].
    - intros i0 j0 (_ & _ & Hlt & _) Hle. cbn [var_i] in Hle. lia.
    - intros k Hk. cbn [var_i] in Hk. lia. }
  pose proof (scanned_same_directions to_datetime df) as Hsame.
  split.
  - intros (m & Hin & <- & <-).
    apply (valid_pair_same_directions _ _ _ _ Hsame). now apply HA.
  - intros Hv.
    apply (valid_pair_same_directions _ _ _ _ (same_directions_sym _ _ Hsame)) in Hv.
    destruct (HB i j Hv) as (m & Hin & He).
    + destruct Hv as (_ & Hsent & _). apply is_sent_in_frame in Hsent.
      rewrite scanned_len in Hsent. lia.
    + exists m. unfold endpoints in He. injection He as Hi Hj. auto.
Qed.

Lemma paired_iff_valid_pair_witness :
  (exists m, In m example_matches /\ receive_index m = 3 /\ send_index m = 4)
  <-> valid_pair example_log 3 4.
Proof.
  apply (paired_iff_valid_pair example_to_datetime example_log example_matches 3 4).
  vm_compute. reflexivity.
Defined.

Lemma paired_before_count (df : DataFrame) (ms : list Match) (b : nat) :
  paired_before df ms b -> 2 * List.length ms <= b.
Proof.
  revert b. induction ms as [|m ms IH]; intros b; simpl; [lia|].
  intros (H1 & H2 & _ & _ & _ & H6). pose proof (IH _ H6). lia.
Qed.

(** X3: the engine never returns more matches than half the number of
    rows. *)
Theorem at_most_half_the_rows
    (to_datetime : value -> option Z) (df : DataFrame) (ms : list Match) :
  snd (calculate_time_differences to_datetime df) = Returned ms ->
  2 * List.length ms <= len df.
Proof.
  intros Hret.
  destruct (engine_returned to_datetime df ms Hret) as (_ & (b & Hp) & _).
  rewrite <- length_rev.
  destruct (rev ms) as [|m older] eqn:E; [simpl; lia|].
  cbn [paired_before] in Hp. destruct Hp as (_ & Hlt & _ & Hsent & _ & Hold).
  apply is_sent_in_frame in Hsent.
  pose proof (paired_before_count df older _ Hold). cbn [List.length]. lia.
Qed.

Lemma at_most_half_the_rows_witness : 2 * 2 <= 5.
Proof.
  apply (at_most_half_the_rows example_to_datetime example_log example_matches).
  vm_compute. reflexivity.
Defined.

(** X4: the duration of a match whose two time cells parse is the
    difference of the two times, sent minus received, in minutes; nothing
    guards its sign, so it is negative exactly when the sent time is the
    earlier one. *)
Theorem duration_is_time_difference
    (to_datetime : value -> option Z) (df : DataFrame) (ms : list Match)
    (m : Match) (received sent : Z) :
  snd (calculate_time_differences to_datetime df) = Returned ms ->
  In m ms ->
  to_datetime (receive_time m) = Some received ->
  to_datetime (send_time m) = Some sent ->
  time_diff_minutes m = FVal (((sent - received) # 1000000000) / (60 # 1)) /\
  ((((sent - received) # 1000000000) / (60 # 1) < 0)%Q <-> (sent < received)%Z).
Proof.
  intros Hret Hin Hr Hs.
  destruct (engine_returned to_datetime df ms Hret) as (_ & _ & Hall).
  rewrite Forall_forall in Hall. pose proof (Hall m Hin) as Hm.
  split.
  - rewrite Hm in Hr, Hs |- *. cbn [pairing receive_time send_time] in Hr, Hs.
    cbn [pairing time_diff_minutes]. now rewrite Hr, Hs.
  - unfold Qlt, Qdiv, Qmult, Qinv. simpl. lia.
Qed.

Lemma duration_is_time_difference_witness :
  FVal ((300000000000 # 1000000000) / (60 # 1)) =
  FVal (((1704103500000000000 - 1704103200000000000) # 1000000000) / (60 # 1)) /\
  ((((1704103500000000000 - 1704103200000000000) # 1000000000) / (60 # 1) < 0)%Q
   <-> (1704103500000000000 < 1704103200000000000)%Z).
Proof.
  apply (duration_is_time_difference example_to_datetime example_log
           example_matches
           (nth 0 example_matches (mkMatch 0 0 VNone VNone FNaN))
           1704103200000000000 1704103500000000000).
  - vm_compute. reflexivity.
  - left. reflexivity.
  - reflexivity.
  - reflexivity.
Defined.

(** ** What the engine reads *)

Lemma same_log_cell_at (df df' : DataFrame) (i : nat) :
  same_log df df' ->
  py_in (VStr TIME) (columns df) = true ->
  py_in (VStr TIME) (columns df') = true ->
  i < len df ->
  cell_at df i (VStr TIME) = cell_at df' i (VStr TIME).
Proof.
  intros ((Hlen & _) & Htime) Ht Ht' Hi.
  pose proof (Htime i) as H.
  rewrite !iloc_getitem_cell_at in H by (auto; lia).
  now injection H.
Qed.

(** X5: the engine reads the direction and the time of each row and
    nothing else: two frames that have both labels and agree on these two
    cells in every row give the same matches, whatever else they hold. *)
Theorem engine_reads_direction_and_time_only
    (to_datetime : value -> option Z) (df df' : DataFrame) :
  py_in (VStr STATUS) (columns df) = true ->
  py_in (VStr TIME) (columns df) = true ->
  py_in (VStr STATUS) (columns df') = true ->
  py_in (VStr TIME) (columns df') = true ->
  same_log df df' ->
  snd (calculate_time_differences to_datetime df) =
  snd (calculate_time_differences to_datetime df').
Proof.
  intros Hs Ht Hs' Ht' Hlog. pose proof Hlog as (Hsame & _).
  destruct (engine_spec to_datetime df (S (len df)) Hs Ht)
    as (s & Hrun & _ & Hreach & _); [lia|].
  destruct (engine_spec to_datetime df' (S (len df')) Hs' Ht')
    as (s' & Hrun' & _ & Hreach' & _); [lia|].
  assert (Hret : snd (calculate_time_differences to_datetime df)
                 = Returned (var_results s))
    by (unfold calculate_time_differences; now rewrite Hrun).
  assert (Hret' : snd (calculate_time_differences to_datetime df')
                  = Returned (var_results s'))
    by (unfold calculate_time_differences; now rewrite Hrun').
  rewrite Hret, Hret'. f_equal.
  destruct (engine_returned to_datetime df _ Hret) as (_ & (b & Hp) & Hall).
  destruct (engine_returned to_datetime df' _ Hret') as (_ & _ & Hall').
  rewrite (pairings_from_endpoints _ _ _ Hall), (pairings_from_endpoints _ _ _ Hall').
  rewrite <- (scan_reaches_same_endpoints to_datetime to_datetime _ _
               (same_directions_scanned _ _ _ _ Hsame) _ _ Hreach _ _ Hreach')
    by reflexivity.
  apply map_ext_in. intros [i j] Hin.
  apply in_map_iff in Hin. destruct Hin as (m & He & Hin).
  unfold endpoints in He. injection He as <- <-. cbn [fst snd].
  apply in_rev in Hin.
  destruct (paired_before_each df _ _ Hp m Hin) as (_ & Hsent & _).
  destruct (paired_before_bounds df _ _ Hp m Hin) as (Hlt & _).
  apply is_sent_in_frame in Hsent.
  unfold pairing.
  rewrite (same_log_cell_at df df' (receive_index m) Hlog Ht Ht') by lia.
  rewrite (same_log_cell_at df df' (send_index m) Hlog Ht Ht') by lia.
  reflexivity.
Qed.

Lemma dict_set_set (s : string) (v v' : value) (d : dict) :
  dict_set (VStr s) v (dict_set (VStr s) v' d) = dict_set (VStr s) v d.
Proof.
  induction d as [|[k w] d IH]; simpl.
  - now rewrite py_eq_str_refl.
  - destruct (py_eq k (VStr s)) eqn:E; simpl; rewrite E; [reflexivity|].
    now rewrite IH.
Qed.

Lemma assign_cells_map (k : value) (f : dict -> value) (rs : list dict) :
  assign_cells k rs (map f rs) = map (fun r => dict_set k (f r) r) rs.
Proof. induction rs as [|r rs IH]; simpl; [reflexivity|now rewrite IH]. Qed.

Lemma scanned_scanned (to_datetime : value -> option Z) (df : DataFrame) :
  scanned to_datetime (scanned to_datetime df) = scanned to_datetime df.
Proof.
  unfold scanned, setitem_column. cbn [columns records].
  rewrite !map_map, !assign_cells_map. f_equal.
  - unfold add_label at 1. now rewrite py_in_add_label_same.
  - rewrite map_map. apply map_ext. intros r.
    unfold cell at 1. rewrite dict_get_set_other by reflexivity.
    fold (cell (VStr TIME) r). apply dict_set_set.
Qed.

Lemma scan_reaches_same_results (to_datetime : value -> option Z) (df : DataFrame)
    (s0 s1 s2 : locals) :
  var_results s0 = [] ->
  scan_reaches to_datetime df s0 s1 ->
  scan_reaches to_datetime df s0 s2 ->
  var_results s1 = var_results s2.
Proof.
  intros Hnil H1 H2.
  assert (Hall : Forall (fun m => m = pairing to_datetime df (receive_index m)
                                                    (send_index m)) (var_results s0))
    by (rewrite Hnil; constructor).
  rewrite (pairings_from_endpoints _ _ _ (scan_reaches_pairings _ _ _ _ H1 Hall)).
  rewrite (pairings_from_endpoints _ _ _ (scan_reaches_pairings _ _ _ _ H2 Hall)).
  f_equal.
  apply (scan_reaches_same_endpoints to_datetime to_datetime _ _
           (same_directions_refl _) _ _ H1 _ _ H2); reflexivity.
Qed.

(** X6: on a frame with both labels the first call returns its matches
    and leaves the frame with the [datetime] column set; a second call on
    that frame leaves it as it is and returns the same matches.  On a
    frame that lacks one of the labels the call raises the missing-columns
    error and leaves the frame untouched, so a second call does the same.
    In both cases the second call on the frame the first one left behind
    yields what the first one yielded. *)
Theorem second_call_is_the_same (to_datetime : value -> option Z) (df : DataFrame) :
  calculate_time_differences to_datetime
    (fst (calculate_time_differences to_datetime df)) =
  calculate_time_differences to_datetime df /\
  (py_in (VStr STATUS) (columns df) = true ->
   py_in (VStr TIME) (columns df) = true ->
   exists ms,
     calculate_time_differences to_datetime df
       = (scanned to_datetime df, Returned ms) /\
     calculate_time_differences to_datetime (scanned to_datetime df)
       = (scanned to_datetime df, Returned ms)) /\
  (py_in (VStr STATUS) (columns df) = false \/
   py_in (VStr TIME) (columns df) = false ->
   calculate_time_differences to_datetime df
     = (df, Raised (ValueError MSG_COLUMNS))).
Proof.
  destruct (py_in (VStr STATUS) (columns df)) eqn:Hs;
    [destruct (py_in (VStr TIME) (columns df)) eqn:Ht|].
  - destruct (engine_spec to_datetime df (S (len df)) Hs Ht)
      as (s & Hrun & _ & Hreach & _); [lia|].
    pose proof (scanned_ok to_datetime df Hs Ht) as (Hs1 & Ht1 & _).
    destruct (engine_spec to_datetime (scanned to_datetime df)
                (S (len (scanned to_datetime df))) Hs1 Ht1)
      as (s1 & Hrun1 & _ & Hreach1 & _); [lia|].
    rewrite scanned_scanned in Hrun1, Hreach1.
    assert (Hsame : var_results s1 = var_results s)
      by now apply (scan_reaches_same_results to_datetime (scanned to_datetime df)
                      {| var_i := 0; var_j := 0; var_results := [] |}).
    unfold calculate_time_differences in *.
    rewrite Hrun. cbn [fst]. rewrite Hrun1, Hsame.
    split; [reflexivity|split].
    + intros _ _. exists (var_results s). split; reflexivity.
    + intros [H|H]; discriminate H.
  - unfold calculate_time_differences, calculate_time_differences_fuel.
    rewrite Hs, Ht. cbn [negb orb fst]. rewrite Hs, Ht. cbn [negb orb].
    split; [reflexivity|split].
    + intros _ H. discriminate H.
    + intros _. reflexivity.
  - unfold calculate_time_differences, calculate_time_differences_fuel.
    rewrite Hs. cbn [negb orb fst]. rewrite Hs. cbn [negb orb].
    split; [reflexivity|split].
    + intros H. discriminate H.
    + intros _. reflexivity.
Qed.

Lemma second_call_is_the_same_witness :
  exists ms,
    calculate_time_differences example_to_datetime example_log
      = (scanned example_to_datetime example_log, Returned ms) /\
    calculate_time_differences example_to_datetime
      (scanned example_to_datetime example_log)
      = (scanned example_to_datetime example_log, Returned ms).
Proof.
  destruct (second_call_is_the_same example_to_datetime example_log)
    as (_ & Hboth & _).
  apply Hboth; reflexivity.
Defined.

Lemma engine_reads_direction_and_time_only_witness :
  snd (calculate_time_differences example_to_datetime example_log) =
  snd (calculate_time_differences example_to_datetime example_log_with_names).
Proof.
  apply (engine_reads_direction_and_time_only example_to_datetime
           example_log example_log_with_names);
    try reflexivity.
  split; [split; [reflexivity|]|];
    intros i; do 5 (destruct i as [|i]; [reflexivity|]); destruct i; reflexivity.
Defined.

(** * Further properties of the reader *)

Lemma py_eq_str_inv_l (v : value) (s : string) :
  py_eq (VStr s) v = true -> v = VStr s.
Proof.
  destruct v; unfold py_eq; try discriminate.
  intros H. apply String.eqb_eq in H. now subst.
Qed.

Lemma dict_get_str_set_other (s : string) (h v : value) (d : dict) :
  py_eq h (VStr s) = false ->
  dict_get (VStr s) (dict_set h v d) = dict_get (VStr s) d.
Proof.
  intros Hh. induction d as [|[k0 w] d IH]; simpl.
  - now rewrite Hh.
  - destruct (py_eq k0 h) eqn:E; simpl.
    + destruct (py_eq k0 (VStr s)) eqn:E0; [|reflexivity].
      apply py_eq_str_inv in E0. subst k0.
      apply py_eq_str_inv_l in E. subst h.
      rewrite py_eq_str_refl in Hh. discriminate.
    + now rewrite IH.
Qed.

Lemma enumerate_app {A : Type} (n : nat) (l1 l2 : list A) :
  enumerate n (l1 ++ l2) = enumerate n l1 ++ enumerate (n + List.length l1) l2.
Proof.
  revert n. induction l1 as [|x l1 IH]; intros n; simpl.
  - now rewrite Nat.add_0_r.
  - rewrite IH. now rewrite Nat.add_succ_r.
Qed.

Lemma column_indexes_snoc (hs : list value) (h : value) :
  column_indexes (hs ++ [h]) =
  if py_eq h (VStr STATUS) then (Some (List.length hs), snd (column_indexes hs))
  else if py_eq h (VStr TIME) then (fst (column_indexes hs), Some (List.length hs))
  else column_indexes hs.
Proof.
  unfold column_indexes. rewrite enumerate_app, fold_left_app. reflexivity.
Qed.

Lemma make_data_row_snoc (hs row : list value) (h : value) :
  make_data_row (hs ++ [h]) row =
  dict_set h (if List.length hs <? List.length row
              then nth (List.length hs) row VNone else VNone)
           (make_data_row hs row).
Proof.
  unfold make_data_row. rewrite enumerate_app, fold_left_app.
  cbn [enumerate fold_left fst snd Nat.add].
  now destruct (List.length hs <? List.length row).
Qed.

(** The cell that row [row] has at a position of the header row, as
    lines 114-117 read it. *)
Lemma cell_of_row (row : list value) (j : nat) :
  (if j <? List.length row then nth j row VNone else VNone) = nth j row VNone.
Proof.
  destruct (j <? List.length row) eqn:E; [reflexivity|].
  apply Nat.ltb_ge in E. symmetry. now apply nth_overflow.
Qed.

Lemma make_data_row_required (hs row : list value) :
  (forall s, fst (column_indexes hs) = Some s ->
     s < List.length hs /\
     nth_error hs s = Some (VStr STATUS) /\
     (forall k, s < k -> nth_error hs k <> Some (VStr STATUS)) /\
     dict_get (VStr STATUS) (make_data_row hs row) = Some (nth s row VNone)) /\
  (forall t, snd (column_indexes hs) = Some t ->
     t < List.length hs /\
     nth_error hs t = Some (VStr TIME) /\
     (forall k, t < k -> nth_error hs k <> Some (VStr TIME)) /\
     dict_get (VStr TIME) (make_data_row hs row) = Some (nth t row VNone)).
Proof.
  induction hs as [|h hs IH] using rev_ind.
  - split; intros x Hx; discriminate Hx.
  - destruct IH as (IHs & IHt).
    rewrite column_indexes_snoc, make_data_row_snoc, cell_of_row.
    rewrite length_app. cbn [List.length].
    assert (Hlast : forall k, List.length hs < k -> nth_error (hs ++ [h]) k = None).
    { intros k Hk. apply nth_error_None. rewrite length_app. cbn. lia. }
    assert (Hold : forall x v, x < List.length hs ->
              nth_error hs x = Some v -> nth_error (hs ++ [h]) x = Some v).
    { intros x v Hx Hv. now rewrite nth_error_app1. }
    assert (Hnew : nth_error (hs ++ [h]) (List.length hs) = Some h).
    { rewrite nth_error_app2, Nat.sub_diag by lia. reflexivity. }
    destruct (py_eq h (VStr STATUS)) eqn:Es; [|destruct (py_eq h (VStr TIME)) eqn:Et].
    + pose proof (status_is_not_time h Es) as Et.
      apply py_eq_str_inv in Es. subst h. cbn [fst snd]. split.
      * intros s Hs. injection Hs as <-.
        split; [lia|]. split; [exact Hnew|]. split.
        -- intros k Hk. rewrite Hlast by lia. discriminate.
        -- apply dict_get_set_same.
      * intros t Hsome. destruct (IHt t Hsome) as (H1 & H2 & H3 & H4).
        split; [lia|]. split; [now apply Hold|]. split.
        -- intros k Hk. destruct (Nat.lt_total k (List.length hs)) as [Hlt|[->|Hgt]].
           ++ rewrite nth_error_app1 by lia. now apply H3.
           ++ rewrite Hnew. discriminate.
           ++ rewrite Hlast by lia. discriminate.
        -- rewrite dict_get_set_other by reflexivity. exact H4.
    + apply py_eq_str_inv in Et. subst h. cbn [fst snd]. split.
      * intros s Hsome. destruct (IHs s Hsome) as (H1 & H2 & H3 & H4).
        split; [lia|]. split; [now apply Hold|]. split.
        -- intros k Hk. destruct (Nat.lt_total k (List.length hs)) as [Hlt|[->|Hgt]].
           ++ rewrite nth_error_app1 by lia. now apply H3.
           ++ rewrite Hnew. discriminate.
           ++ rewrite Hlast by lia. discriminate.
        -- rewrite dict_get_set_other by reflexivity. exact H4.
      * intros t Ht. injection Ht as <-.
        split; [lia|]. split; [exact Hnew|]. split.
        -- intros k Hk. rewrite Hlast by lia. discriminate.
        -- apply dict_get_set_same.
    + split.
      * intros s Hsome. destruct (IHs s Hsome) as (H1 & H2 & H3 & H4).
        split; [lia|]. split; [now apply Hold|]. split.
        -- intros k Hk. destruct (Nat.lt_total k (List.length hs)) as [Hlt|[->|Hgt]].
           ++ rewrite nth_error_app1 by lia. now apply H3.
           ++ rewrite Hnew. intros H. injection H as ->.
              rewrite py_eq_str_refl in Es. discriminate.
           ++ rewrite Hlast by lia. discriminate.
        -- rewrite dict_get_str_set_other by exact Es. exact H4.
      * intros t Hsome. destruct (IHt t Hsome) as (H1 & H2 & H3 & H4).
        split; [lia|]. split; [now apply Hold|]. split.
        -- intros k Hk. destruct (Nat.lt_total k (List.length hs)) as [Hlt|[->|Hgt]].
           ++ rewrite nth_error_app1 by lia. now apply H3.
           ++ rewrite Hnew. intros H. injection H as ->.
              rewrite py_eq_str_refl in Et. discriminate.
           ++ rewrite Hlast by lia. discriminate.
        -- rewrite dict_get_str_set_other by exact Et. exact H4.
Qed.

(** X7: when a required label stands in several cells of the header row,
    its last cell is the column that is used, and the record made of a row
    shows under each required label the very cell of that column, the one
    the skip test of line 109 looks at. *)
Theorem record_shows_tested_cells (hs row : list value) (s t : nat) :
  column_indexes hs = (Some s, Some t) ->
  (nth_error hs s = Some (VStr STATUS) /\
   forall k, s < k -> nth_error hs k <> Some (VStr STATUS)) /\
  (nth_error hs t = Some (VStr TIME) /\
   forall k, t < k -> nth_error hs k <> Some (VStr TIME)) /\
  dict_get (VStr STATUS) (make_data_row hs row) = Some (nth s row VNone) /\
  dict_get (VStr TIME) (make_data_row hs row) = Some (nth t row VNone).
Proof.
  intros Hcols. destruct (make_data_row_required hs row) as (Hs & Ht).
  destruct (Hs s) as (_ & H1 & H2 & H3); [now rewrite Hcols|].
  destruct (Ht t) as (_ & H4 & H5 & H6); [now rewrite Hcols|].
  auto.
Qed.

Lemma record_shows_tested_cells_witness :
  dict_get (VStr STATUS)
    (make_data_row [VStr STATUS; VStr TIME; VStr STATUS]
                   [VStr "old"; VStr "2024/01/01 10:00"; VStr RECEIVE])
  = Some (VStr RECEIVE).
Proof.
  destruct (record_shows_tested_cells
              [VStr STATUS; VStr TIME; VStr STATUS]
              [VStr "old"; VStr "2024/01/01 10:00"; VStr RECEIVE] 2 1 eq_refl)
    as (_ & _ & Hstatus & _).
  exact Hstatus.
Defined.

Lemma skip_row_kept (s t : nat) (row : list value) :
  row = [] \/ (s < List.length row /\ t < List.length row) ->
  skip_row s t row = Returned (negb (kept s t row)).
Proof.
  unfold skip_row, kept, tuple_getitem.
  intros [->|(Hs & Ht)]; [reflexivity|].
  destruct (truthy row); cbn [negb andb]; [|reflexivity].
  destruct (nth_error row s) as [a|] eqn:Ea; [|apply nth_error_None in Ea; lia].
  destruct (nth_error row t) as [b|] eqn:Eb; [|apply nth_error_None in Eb; lia].
  rewrite (nth_error_nth _ _ VNone Ea), (nth_error_nth _ _ VNone Eb).
  cbn [bind]. destruct (is_None a); cbn [negb andb bind]; [reflexivity|].
  now rewrite negb_involutive.
Qed.

Lemma collect_data_kept (hs : list value) (s t : nat)
    (rows : list (list value)) (data : list dict) :
  Forall (fun row => row = [] \/ (s < List.length row /\ t < List.length row)) rows ->
  collect_data hs s t rows data =
  Returned (data ++ map (make_data_row hs) (filter (kept s t) rows)).
Proof.
  intros Hrows. revert data.
  induction Hrows as [|row rows Hrow Hrows IH]; intros data.
  - simpl. now rewrite app_nil_r.
  - cbn [collect_data filter]. rewrite skip_row_kept by exact Hrow.
    cbn [bind]. destruct (kept s t row); cbn [negb].
    + rewrite IH. cbn [map]. now rewrite <- app_assoc.
    + apply IH.
Qed.

Lemma rectangular_wide (width s t : nat) (rows : list (list value)) :
  rectangular width rows -> s < width -> t < width ->
  Forall (fun row => row = [] \/ (s < List.length row /\ t < List.length row)) rows.
Proof.
  intros Hrect Hs Ht. eapply Forall_impl; [|exact Hrect].
  intros row Hrow. cbv beta in Hrow. right. lia.
Qed.

(** X8: on rows that all have the two required columns, the loop of lines
    107-119 never raises, and what it collects are the records of exactly
    the rows that are not empty and have a value in both columns, in the
    order of the sheet. *)
Theorem reader_keeps_complete_rows (hs : list value) (s t width : nat)
    (rows : list (list value)) (data : list dict) :
  rectangular width rows -> s < width -> t < width ->
  collect_data hs s t rows data =
  Returned (data ++ map (make_data_row hs) (filter (kept s t) rows)).
Proof.
  intros Hrect Hs Ht. apply collect_data_kept.
  now apply rectangular_wide with width.
Qed.

Lemma reader_keeps_complete_rows_witness :
  collect_data [VStr TIME; VStr STATUS] 1 0 (skipn 2 example_sheet) [] =
  Returned ([] ++ map (make_data_row [VStr TIME; VStr STATUS])
                      (filter (kept 1 0) (skipn 2 example_sheet))).
Proof.
  apply (reader_keeps_complete_rows [VStr TIME; VStr STATUS] 1 0 2).
  - repeat constructor.
  - apply le_n.
  - apply le_S, le_n.
Defined.

(** ** The labels of the frame of the collected rows *)

Lemma add_label_keeps (k l : value) (cols : list value) :
  py_in k cols = true -> py_in k (add_label l cols) = true.
Proof.
  intros H. unfold add_label. destruct (py_in l cols); [exact H|].
  rewrite py_in_app, H. reflexivity.
Qed.

Lemma fold_add_label_keeps (k : value) (ks cols : list value) :
  py_in k cols = true ->
  py_in k (fold_left (fun c k' => add_label k' c) ks cols) = true.
Proof.
  revert cols. induction ks as [|l ks IH]; intros cols H; simpl; [exact H|].
  apply IH. now apply add_label_keeps.
Qed.

Lemma fold_add_label_adds (s : string) (ks cols : list value) :
  py_in (VStr s) ks = true ->
  py_in (VStr s) (fold_left (fun c k' => add_label k' c) ks cols) = true.
Proof.
  revert cols. induction ks as [|l ks IH]; intros cols H; [discriminate|].
  unfold py_in in H. cbn [existsb] in H. cbn [fold_left].
  destruct (py_eq l (VStr s)) eqn:E.
  - apply py_eq_str_inv in E. subst l.
    apply fold_add_label_keeps, py_in_add_label_same.
  - apply IH. exact H.
Qed.

Lemma dict_get_in_keys (s : string) (r : dict) (v : value) :
  dict_get (VStr s) r = Some v -> py_in (VStr s) (keys r) = true.
Proof.
  induction r as [|[k w] r IH]; simpl; [discriminate|].
  destruct (py_eq k (VStr s)); [reflexivity|]. exact IH.
Qed.

Lemma pd_DataFrame_has_label (s : string) (data : list dict) (r : dict) (v : value) :
  In r data -> dict_get (VStr s) r = Some v ->
  py_in (VStr s) (columns (pd_DataFrame data)) = true.
Proof.
  intros Hin Hget. unfold pd_DataFrame. cbn [columns].
  generalize (@nil value) as cols. revert Hin.
  induction data as [|r0 data IH]; intros [] cols.
  - subst r0. cbn [fold_left].
    assert (H : py_in (VStr s)
                  (fold_left (fun c k' => add_label k' c) (keys r) cols) = true)
      by (apply fold_add_label_adds; now apply dict_get_in_keys with v).
    revert H.
    generalize (fold_left (fun c k' => add_label k' c) (keys r) cols) as cols'.
    clear. induction data as [|r1 data IH]; intros cols' H; [exact H|].
    cbn [fold_left]. apply IH. now apply fold_add_label_keeps.
  - cbn [fold_left]. now apply IH.
Qed.

(** X9: what the reading half of [process_excel_file] does with a sheet of
    rows of one width whose first labelled row holds both labels.  That
    row is the header row.  If no row below it is kept, the operation
    fails with the wrapped missing-columns error; otherwise it returns the
    matches that the engine finds on the records of the kept rows. *)
Theorem reader_outcome (to_datetime : value -> option Z)
    (sheet : worksheet) (row : list value) (width : nat) :
  rectangular width sheet ->
  find has_either sheet = Some row ->
  has_both row = true ->
  exists h s t,
    find_header_row sheet 1 = Some h /\
    nth_error sheet (h - 1) = Some row /\
    column_indexes row = (Some s, Some t) /\
    let data := map (make_data_row row) (filter (kept s t) (skipn h sheet)) in
    (data = [] ->
     process_excel_file to_datetime sheet
       = Raised (ValueError (MSG_WRAP ++ MSG_COLUMNS))) /\
    (data <> [] ->
     exists ms,
       snd (calculate_time_differences to_datetime (pd_DataFrame data)) = Returned ms /\
       process_excel_file to_datetime sheet
         = Returned {| header_row := h; headers := row; results := ms |}).
Proof.
  intros Hrect Hfind Hboth.
  destruct (find_header_row sheet 1) as [h|] eqn:Eh;
    [|apply find_header_row_None in Eh; congruence].
  destruct (find_header_row_Some _ _ _ Eh) as (Hle & row' & Hfind' & Hnth).
  rewrite Hfind in Hfind'. injection Hfind' as <-.
  destruct (column_indexes_both row Hboth) as (s & t & Hcols & Hs & Ht).
  assert (Hw : List.length row = width).
  { unfold rectangular in Hrect. rewrite Forall_forall in Hrect.
    apply Hrect. eapply nth_error_In; eauto. }
  exists h, s, t. split; [reflexivity|]. split; [exact Hnth|].
  split; [exact Hcols|]. cbv zeta.
  assert (Hdata : collect_data row s t (skipn h sheet) [] =
                  Returned (map (make_data_row row)
                                (filter (kept s t) (skipn h sheet)))).
  { rewrite collect_data_kept; [reflexivity|].
    apply rectangular_wide with width; [now apply rectangular_skipn|lia|lia]. }
  unfold process_excel_file. rewrite Eh, (nth_error_nth _ _ [] Hnth), Hcols.
  rewrite Hdata. cbn [bind].
  split.
  - intros ->. reflexivity.
  - intros Hne.
    destruct (map (make_data_row row) (filter (kept s t) (skipn h sheet)))
      as [|r data] eqn:Edata; [contradiction|].
    assert (Hr : exists row0, r = make_data_row row row0).
    { assert (Hin : In r (map (make_data_row row)
                            (filter (kept s t) (skipn h sheet))))
        by (rewrite Edata; now left).
      apply in_map_iff in Hin. destruct Hin as (row0 & <- & _). eauto. }
    destruct Hr as (row0 & ->).
    destruct (make_data_row_required row row0) as (Hreq_s & Hreq_t).
    destruct (Hreq_s s) as (_ & _ & _ & Hgs); [now rewrite Hcols|].
    destruct (Hreq_t t) as (_ & _ & _ & Hgt); [now rewrite Hcols|].
    destruct (engine_spec to_datetime
                (pd_DataFrame (make_data_row row row0 :: data))
                (S (len (pd_DataFrame (make_data_row row row0 :: data)))))
      as (st & Hrun & _); [| |lia|].
    + eapply pd_DataFrame_has_label; [now left|exact Hgs].
    + eapply pd_DataFrame_has_label; [now left|exact Hgt].
    + exists (var_results st).
      unfold calculate_time_differences. rewrite Hrun. cbn [snd]. auto.
Qed.

Lemma reader_outcome_witness :
  exists h s t,
    find_header_row example_sheet 1 = Some h /\
    column_indexes [VStr TIME; VStr STATUS] = (Some s, Some t) /\
    exists ms,
      process_excel_file example_to_datetime example_sheet
        = Returned {| header_row := h; headers := [VStr TIME; VStr STATUS];
                      results := ms |}.
Proof.
  destruct (reader_outcome example_to_datetime example_sheet
              [VStr TIME; VStr STATUS] 2)
    as (h & s & t & Hh & _ & Hcols & _ & Hsome).
  - repeat constructor.
  - reflexivity.
  - reflexivity.
  - exists h, s, t. split; [exact Hh|]. split; [exact Hcols|].
    destruct Hsome as (ms & _ & Hres).
    + vm_compute in Hh. injection Hh as <-.
      vm_compute in Hcols. injection Hcols as <- <-.
      vm_compute. discriminate.
    + exists ms. exact Hres.
Defined.

(** * Properties of the writer *)

Section WriterProperties.

Variable round2 : pyfloat -> pyfloat.

Lemma value_written_app (l1 l2 : list assignment) (row column : nat) :
  value_written (l1 ++ l2) row column =
  match value_written l2 row column with
  | Some v => Some v
  | None => value_written l1 row column
  end.
Proof.
  induction l1 as [|a l1 IH]; simpl.
  - now destruct (value_written l2 row column).
  - rewrite IH. now destruct (value_written l2 row column).
Qed.

Lemma value_written_In (log : list assignment) (row column : nat) (v : content) :
  value_written log row column = Some v -> In (SetValue row column v) log.
Proof.
  induction log as [|a log IH]; simpl; [discriminate|].
  destruct (value_written log row column) as [w|].
  - intros H. right. now apply IH.
  - destruct a as [r c w| | |]; try discriminate.
    destruct ((r =? row) && (c =? column)) eqn:E; [|discriminate].
    apply andb_true_iff in E. destruct E as (Er & Ec).
    apply Nat.eqb_eq in Er, Ec. subst. intros H. injection H as ->. now left.
Qed.

Lemma find_time_diff_col_Some (hs : list value) (n c : nat) :
  find_time_diff_col (enumerate n hs) = Some c ->
  n <= c /\ nth_error hs (c - n) = Some (VStr TIME_DIFF).
Proof.
  revert n. induction hs as [|h hs IH]; intros n; simpl; [discriminate|].
  destruct (py_eq h (VStr TIME_DIFF)) eqn:E.
  - intros H. injection H as <-. apply py_eq_str_inv in E. subst h.
    rewrite Nat.sub_diag. split; [lia|reflexivity].
  - intros H. destruct (IH _ H) as (Hle & Hn). split; [lia|].
    replace (c - n) with (S (c - S n)) by lia. exact Hn.
Qed.

(** The duration column is neither the direction column nor the time
    column. *)
Lemma time_diff_column_apart (hr : nat) (hs : list value) (s t : nat) :
  column_indexes hs = (Some s, Some t) ->
  fst (fst (time_diff_column hr hs)) <> s /\
  fst (fst (time_diff_column hr hs)) <> t.
Proof.
  intros Hcols. destruct (make_data_row_required hs []) as (Hs & Ht).
  destruct (Hs s) as (Hs1 & Hs2 & _); [now rewrite Hcols|].
  destruct (Ht t) as (Ht1 & Ht2 & _); [now rewrite Hcols|].
  unfold time_diff_column.
  destruct (find_time_diff_col (enumerate 0 hs)) as [c|] eqn:E; cbn [fst].
  - destruct (find_time_diff_col_Some _ _ _ E) as (_ & Hc).
    rewrite Nat.sub_0_r in Hc.
    split; intros ->; rewrite Hc in *; discriminate.
  - lia.
Qed.

(** X10: the assignments to the log sheet spare the log: no value is
    assigned in the direction column or in the time column, and none
    above the header row. *)
Theorem writer_spares_the_log (p : paired) (s t row column : nat) (v : content) :
  column_indexes (headers p) = (Some s, Some t) ->
  value_written (write_time_diffs round2 p) row column = Some v ->
  column <> s + 1 /\ column <> t + 1 /\ header_row p <= row.
Proof.
  intros Hcols Hw. apply value_written_In in Hw.
  destruct (time_diff_column_apart (header_row p) (headers p) s t Hcols) as (H1 & H2).
  unfold write_time_diffs in Hw. unfold time_diff_column in *.
  destruct (find_time_diff_col (enumerate 0 (headers p))) as [c|];
    cbn [fst] in H1, H2; apply in_app_or in Hw; destruct Hw as [Hw|Hw].
  - destruct Hw.
  - apply in_flat_map in Hw. destruct Hw as (m & _ & Hm).
    destruct Hm as [Hm|[Hm|[Hm|[]]]]; try discriminate.
    injection Hm as <- <- _. lia.
  - destruct Hw as [Hw|[Hw|[]]]; try discriminate.
    injection Hw as <- <- _. lia.
  - apply in_flat_map in Hw. destruct Hw as (m & _ & Hm).
    destruct Hm as [Hm|[Hm|[Hm|[]]]]; try discriminate.
    injection Hm as <- <- _. lia.
Qed.

Lemma value_written_results_other (hr c : nat) (ms : list Match) (row : nat) :
  (forall m, In m ms -> receive_index m + hr + 1 <> row) ->
  value_written (flat_map (write_result round2 hr c) ms) row (c + 1) = None.
Proof.
  intros Hne.
  destruct (value_written (flat_map (write_result round2 hr c) ms) row (c + 1))
    as [v|] eqn:E; [|reflexivity].
  exfalso. apply value_written_In, in_flat_map in E.
  destruct E as (m & Hin & Hm).
  destruct Hm as [Hm|[Hm|[Hm|[]]]]; try discriminate.
  injection Hm as Hrow _. now apply (Hne m Hin).
Qed.

Lemma value_written_results (hr c : nat) (ms : list Match) (k : nat) (m : Match) :
  nth_error ms k = Some m ->
  (forall k' m', nth_error ms k' = Some m' -> k' <> k ->
                 receive_index m' <> receive_index m) ->
  value_written (flat_map (write_result round2 hr c) ms)
    (receive_index m + hr + 1) (c + 1)
  = Some (Number (round2 (time_diff_minutes m))).
Proof.
  intros Hk Hdistinct.
  destruct (nth_error_split ms k Hk) as (l1 & l2 & -> & Hlen).
  rewrite flat_map_app. cbn [flat_map].
  rewrite value_written_app.
  rewrite value_written_app.
  rewrite value_written_results_other.
  - unfold write_result. cbn [value_written].
    now rewrite !Nat.eqb_refl.
  - intros m' Hin Heq.
    apply In_nth_error in Hin. destruct Hin as (k' & Hk').
    apply (Hdistinct (List.length l1 + S k') m').
    + rewrite nth_error_app2 by lia.
      replace (List.length l1 + S k' - List.length l1) with (S k') by lia.
      exact Hk'.
    + lia.
    + lia.
Qed.

(** X11: every match of the engine has its rounded duration in a cell of
    its own: after all assignments to the log sheet, the cell of the
    duration column in row [receive_index + header_row + 1] holds it. *)
Theorem each_duration_in_its_cell
    (to_datetime : value -> option Z) (df : DataFrame) (ms : list Match)
    (hr : nat) (hs : list value) (m : Match) :
  snd (calculate_time_differences to_datetime df) = Returned ms ->
  In m ms ->
  value_written
    (write_time_diffs round2 {| header_row := hr; headers := hs; results := ms |})
    (receive_index m + hr + 1)
    (fst (fst (time_diff_column hr hs)) + 1)
  = Some (Number (round2 (time_diff_minutes m))).
Proof.
  intros Hret Hin.
  destruct (engine_returned to_datetime df ms Hret) as (_ & (b & Hp) & _).
  apply In_nth_error in Hin. destruct Hin as (k & Hk).
  unfold write_time_diffs. cbn [header_row headers results].
  destruct (time_diff_column hr hs) as ((c & hs') & new_header). cbn [fst].
  rewrite value_written_app, (value_written_results hr c ms k m Hk); [reflexivity|].
  intros k' m' Hk' Hne.
  destruct (Nat.lt_total k' k) as [Hlt|[Heq|Hgt]]; [|contradiction|].
  - pose proof (paired_before_sorted df ms b Hp k' k m' m Hlt Hk' Hk). lia.
  - pose proof (paired_before_sorted df ms b Hp k k' m m' Hgt Hk Hk'). lia.
Qed.

Lemma records_pd_DataFrame (data : list dict) : records (pd_DataFrame data) = data.
Proof. reflexivity. Qed.

Lemma nth_error_filter_prefix {A : Type} (f : A -> bool) (l : list A) (i : nat) :
  forallb f (firstn (S i) l) = true ->
  nth_error (filter f l) i = nth_error l i.
Proof.
  revert i. induction l as [|x l IH]; intros i; [now destruct i|].
  cbn [firstn forallb filter]. intros H.
  apply andb_true_iff in H. destruct H as (Hx & Hrest). rewrite Hx.
  destruct i as [|i]; [reflexivity|]. cbn [nth_error]. now apply IH.
Qed.

(** X12: on a sheet of rows of one width, when no row is passed over
    from the header row down to the row of a match's received message,
    the row that line 148 gives the duration to, row
    [receive_index + header_row + 1] counted from 1, is that message's
    own row: its cell in the direction column is the received mark. *)
Theorem duration_lands_on_received_row
    (to_datetime : value -> option Z) (sheet : worksheet) (width : nat)
    (p : paired) (s t : nat) (m : Match) :
  rectangular width sheet ->
  process_excel_file to_datetime sheet = Returned p ->
  column_indexes (headers p) = (Some s, Some t) ->
  In m (results p) ->
  forallb (kept s t) (firstn (S (receive_index m)) (skipn (header_row p) sheet)) = true ->
  exists row,
    nth_error sheet (receive_index m + header_row p + 1 - 1) = Some row /\
    nth s row VNone = VStr RECEIVE.
Proof.
  intros Hrect Hproc Hcols Hin Hkept.
  unfold process_excel_file in Hproc.
  destruct (find_header_row sheet 1) as [h|] eqn:Eh; [|discriminate].
  destruct (find_header_row_Some _ _ _ Eh) as (Hle & hs & _ & Hnth).
  rewrite (nth_error_nth _ _ [] Hnth) in Hproc.
  destruct (column_indexes hs) as [[s'|] [t'|]] eqn:Ecols; try discriminate.
  assert (Hw : List.length hs = width).
  { unfold rectangular in Hrect. rewrite Forall_forall in Hrect.
    apply Hrect. eapply nth_error_In; eauto. }
  destruct (make_data_row_required hs []) as (Hs & Ht).
  destruct (Hs s') as (Hs1 & _); [now rewrite Ecols|].
  destruct (Ht t') as (Ht1 & _); [now rewrite Ecols|].
  rewrite (collect_data_kept hs s' t' (skipn h sheet) []) in Hproc
    by (apply rectangular_wide with width;
        [now apply rectangular_skipn|lia|lia]).
  rewrite app_nil_l in Hproc. cbn [bind] in Hproc.
  destruct (snd (calculate_time_differences to_datetime
                   (pd_DataFrame (map (make_data_row hs)
                                      (filter (kept s' t') (skipn h sheet))))))
    as [ms| |] eqn:Eret; try discriminate.
  injection Hproc as <-. cbn [header_row headers results] in *.
  rewrite Ecols in Hcols. injection Hcols as <- <-.
  destruct (engine_returned to_datetime _ ms Eret) as ((Hlab & _) & (b & Hp) & _).
  apply in_rev in Hin.
  destruct (paired_before_each _ _ _ Hp m Hin) as (Hrecv & _).
  unfold is_received, iloc_getitem, iloc in Hrecv.
  rewrite records_pd_DataFrame in Hrecv.
  rewrite nth_error_map, (nth_error_filter_prefix _ _ _ Hkept),
    nth_error_skipn in Hrecv.
  replace (receive_index m + h + 1 - 1) with (h + receive_index m) by lia.
  destruct (nth_error sheet (h + receive_index m)) as [row|]; [|discriminate].
  exists row. split; [reflexivity|].
  cbn [option_map bind] in Hrecv. unfold getitem in Hrecv.
  cbn [s_index s_data] in Hrecv. rewrite Hlab in Hrecv.
  injection Hrecv as Hcell. unfold cell in Hcell.
  destruct (make_data_row_required hs row) as (Hreq & _).
  destruct (Hreq s') as (_ & _ & _ & Hget); [now rewrite Ecols|].
  now rewrite Hget in Hcell.
Qed.

Lemma value_written_summary_rows_below (hr n : nat) (ms : list Match)
    (row column : nat) :
  row <= n ->
  value_written
    (flat_map (fun ir : nat * Match => write_summary_row round2 hr (fst ir) (snd ir))
              (enumerate n ms)) row column = None.
Proof.
  intros Hrow.
  destruct (value_written _ row column) as [v|] eqn:E; [|reflexivity].
  exfalso. apply value_written_In, in_flat_map in E.
  destruct E as ((i & m) & Hin & Hm). cbn [fst snd] in Hm.
  assert (Hi : n <= i).
  { clear Hm. revert n Hrow Hin. induction ms as [|m0 ms IH]; intros n Hrow; [intros []|].
    cbn [enumerate]. intros [H|H]; [injection H as <- _; lia|].
    apply IH in H; lia. }
  unfold write_summary_row in Hm.
  repeat (destruct Hm as [Hm|Hm]; [injection Hm as Hr _; lia|]).
  destruct Hm.
Qed.

(** X13: the summary sheet lists the matches in the order of the output:
    the row below the headers that belongs to the match at place [k] (from
    0) is row [k + 2], and its six cells hold the number [k + 1], the row
    number of the received message as the log sheet got its duration, the
    text of its time, the same two for the sent message, and the rounded
    duration. *)
Theorem summary_lists_the_matches (p : paired) (k : nat) (m : Match) :
  nth_error (results p) k = Some m ->
  let cell_of := value_written (write_summary round2 p) (k + 2) in
  cell_of 1 = Some (Plain (VInt (Z.of_nat (k + 1)))) /\
  cell_of 2 = Some (Plain (VInt (Z.of_nat (receive_index m + header_row p + 1)))) /\
  cell_of 3 = Some (Plain (receive_time m)) /\
  cell_of 4 = Some (Plain (VInt (Z.of_nat (send_index m + header_row p + 1)))) /\
  cell_of 5 = Some (Plain (send_time m)) /\
  cell_of 6 = Some (Number (round2 (time_diff_minutes m))).
Proof.
  intros Hk. cbv zeta.
  destruct (nth_error_split (results p) k Hk) as (l1 & l2 & Hsplit & Hlen).
  unfold write_summary. rewrite Hsplit, enumerate_app. cbn [enumerate].
  rewrite flat_map_app. cbn [flat_map fst snd].
  rewrite Hlen.
  assert (Hrow : 1 + k + 1 = k + 2) by lia.
  assert (Hown : forall c,
    value_written
      (write_summary_headers ++
       flat_map (fun ir : nat * Match => write_summary_row round2 (header_row p) (fst ir) (snd ir))
                (enumerate 1 l1) ++
       write_summary_row round2 (header_row p) (1 + k) m ++
       flat_map (fun ir : nat * Match => write_summary_row round2 (header_row p) (fst ir) (snd ir))
                (enumerate (S (1 + k)) l2)) (k + 2) c
    = match value_written (write_summary_row round2 (header_row p) (1 + k) m) (k + 2) c with
      | Some v => Some v
      | None =>
          value_written
            (write_summary_headers ++
             flat_map (fun ir : nat * Match =>
                         write_summary_row round2 (header_row p) (fst ir) (snd ir))
                      (enumerate 1 l1)) (k + 2) c
      end).
  { intros c. rewrite !value_written_app.
    rewrite value_written_summary_rows_below by lia.
    destruct (value_written (write_summary_row round2 (header_row p) (1 + k) m)
                (k + 2) c); reflexivity. }
  rewrite !Hown. unfold write_summary_row. rewrite Hrow.
  cbn [value_written]. rewrite !Nat.eqb_refl. cbn [Nat.eqb andb].
  replace (1 + k) with (k + 1) by lia.
  repeat split; reflexivity.
Qed.

(** X14: when the sheet already has a duration column, the writer assigns
    nothing outside the rows of the received messages of the matches: a
    duration that an earlier run left in any other row of that column is
    not cleared. *)
Theorem old_durations_are_not_cleared (p : paired) (c row column : nat) :
  find_time_diff_col (enumerate 0 (headers p)) = Some c ->
  (forall m, In m (results p) -> receive_index m + header_row p + 1 <> row) ->
  value_written (write_time_diffs round2 p) row column = None.
Proof.
  intros Hc Hrows.
  destruct (value_written (write_time_diffs round2 p) row column) as [v|] eqn:E;
    [|reflexivity].
  exfalso. apply value_written_In in E.
  unfold write_time_diffs, time_diff_column in E. rewrite Hc in E.
  cbn [app] in E. apply in_flat_map in E. destruct E as (m & Hin & Hm).
  destruct Hm as [Hm|[Hm|[Hm|[]]]]; try discriminate.
  injection Hm as Hrow _. now apply (Hrows m Hin).
Qed.

End WriterProperties.

Lemma old_durations_are_not_cleared_witness :
  value_written
    (write_time_diffs example_round2
       {| header_row := 1;
          headers := [VStr STATUS; VStr TIME; VStr TIME_DIFF];
          results := example_matches |})
    3 3 = None.
Proof.
  apply (old_durations_are_not_cleared example_round2
           {| header_row := 1;
              headers := [VStr STATUS; VStr TIME; VStr TIME_DIFF];
              results := example_matches |} 2 3 3).
  - reflexivity.
  - intros m [<-|[<-|[]]]; discriminate.
Defined.

Lemma writer_spares_the_log_witness : 3 <> 1 + 1 /\ 3 <> 0 + 1 /\ 2 <= 2.
Proof.
  apply (writer_spares_the_log example_round2
           {| header_row := 2; headers := [VStr TIME; VStr STATUS]; results := [] |}
           1 0 2 3 (Plain (VStr TIME_DIFF))).
  - reflexivity.
  - reflexivity.
Defined.

Lemma each_duration_in_its_cell_witness :
  value_written
    (write_time_diffs example_round2
       {| header_row := 1; headers := [VStr STATUS; VStr TIME];
          results := example_matches |})
    (3 + 1 + 1) (2 + 1)
  = Some (Number FNaN).
Proof.
  apply (each_duration_in_its_cell example_round2 example_to_datetime example_log
           example_matches 1 [VStr STATUS; VStr TIME]
           (nth 1 example_matches (mkMatch 0 0 VNone VNone FNaN))).
  - vm_compute. reflexivity.
  - right. left. reflexivity.
Defined.

Lemma duration_lands_on_received_row_witness :
  exists row,
    nth_error example_sheet (0 + 2 + 1 - 1) = Some row /\
    nth 1 row VNone = VStr RECEIVE.
Proof.
  apply (duration_lands_on_received_row example_to_datetime
              example_sheet 2
              {| header_row := 2;
                 headers := [VStr TIME; VStr STATUS];
                 results :=
                   [ {| receive_index := 0; send_index := 1;
                        receive_time := VStr "2024/01/01 10:00";
                        send_time := VStr "2024/01/01 10:07";
                        time_diff_minutes :=
                          FVal ((420000000000 # 1000000000) / (60 # 1)) |} ] |}
              1 0
              {| receive_index := 0; send_index := 1;
                 receive_time := VStr "2024/01/01 10:00";
                 send_time := VStr "2024/01/01 10:07";
                 time_diff_minutes :=
                   FVal ((420000000000 # 1000000000) / (60 # 1)) |}).
  - repeat constructor.
  - vm_compute. reflexivity.
  - reflexivity.
  - left. reflexivity.
  - reflexivity.
Defined.

Lemma summary_lists_the_matches_witness :
  value_written
    (write_summary example_round2
       {| header_row := 1; headers := [VStr STATUS; VStr TIME];
          results := example_matches |})
    (1 + 2) 4
  = Some (Plain (VInt 6)).
Proof.
  destruct (summary_lists_the_matches example_round2
              {| header_row := 1; headers := [VStr STATUS; VStr TIME];
                 results := example_matches |}
              1 (nth 1 example_matches (mkMatch 0 0 VNone VNone FNaN)) eq_refl)
    as (_ & _ & _ & H4 & _).
  exact H4.
Defined.

(** With a row passed over between the two messages, the row number the
    summary gives for the sent message is not the row of that message:
    in [example_sheet] the sent message is in row 5, the summary says 4,
    and row 4 is the empty row. *)
Example passed_over_row_shifts_the_numbers :
  exists p,
    process_excel_file example_to_datetime example_sheet = Returned p /\
    value_written (write_summary example_round2 p) 2 4 = Some (Plain (VInt 4)) /\
    nth_error example_sheet (4 - 1) = Some [VNone; VNone] /\
    nth_error example_sheet (5 - 1) = Some [VStr "2024/01/01 10:07"; VStr SEND].
Proof. eexists. split; [vm_compute; reflexivity|]. repeat split. Qed.
